(** * Verification of the ROA / P-B research pipeline

  Shallow embedding of the Python scripts
    - [pull_wrds_data.py]            (market-data deduplication, merge, market cap)
    - [code/python/prepare_data.py]  (unit alignment, filters, ratios, output)
    - [do_analysis.py]               (existence check, small-sample guard, figures)
    - [code/python/panel_eda_helper_funcs.py]
                                     (descriptive table, correlation table,
                                      argument validation of the regression table)

  The scripts are modelled from the point where [config/global_cfg.yaml]
  has been read: a script is a function of the configuration and of the
  file system, and a run yields how it ended, the new file system and the
  events it emitted (prints, reads, directories made, files written).

  Numeric columns are pandas [float64] columns.  They are modelled by the
  IEEE-754 binary64 specification of the Standard Library ([spec_float] with
  precision 53 and maximal exponent 1024), so that rounding, overflow to
  infinity and NaN behave as they do in the program. *)

From Stdlib Require Import ZArith QArith List Bool Lia Permutation Sorted Ascii String.
From Stdlib Require Import SpecFloat.
From stdpp Require Import base decidable option list strings gmap.

Local Open Scope Z_scope.

(* stdpp's solvers clear hypotheses that are sometimes gone already *)
#[local] Set Warnings "-clear-no-such-hyp".

(* ===================================================================== *)
(** * binary64 arithmetic                                                  *)
(* ===================================================================== *)

Module F64.

Definition prec : Z := 53.
Definition emax : Z := 1024.

Definition float : Type := spec_float.

Definition nan : float := S754_nan.
Definition inf : float := S754_infinity false.
Definition neg_inf : float := S754_infinity true.

Definition mul : float -> float -> float := SFmul prec emax.
Definition div : float -> float -> float := SFdiv prec emax.
Definition ltb : float -> float -> bool := SFltb.
Definition eqb : float -> float -> bool := SFeqb.

(** The float nearest to an integer (Python's [float(z)]). *)
Definition of_Z (z : Z) : float := binary_normalize prec emax z 0 false.

(** The float nearest to the fraction [n / d]: for a decimal literal such as
    [0.1] this is the value Python reads, because both are the correctly
    rounded image of the same rational number (numerator and denominator
    below 2^53 are exact). *)
Definition of_frac (n d : Z) : float := div (of_Z n) (of_Z d).

Definition zero : float := S754_zero false.
Definition one : float := Eval vm_compute in of_Z 1.
Definition minus_one : float := Eval vm_compute in of_Z (-1).
Definition fifty : float := Eval vm_compute in of_Z 50.
Definition million : float := Eval vm_compute in of_Z 1000000.

Definition is_nan (x : float) : bool :=
  match x with S754_nan => true | _ => false end.

Definition is_inf (x : float) : bool :=
  match x with S754_infinity _ => true | _ => false end.

Definition is_finite (x : float) : bool :=
  match x with S754_zero _ | S754_finite _ _ _ => true | _ => false end.

(** Python's [x > y] on floats. *)
Definition gtb (x y : float) : bool := ltb y x.

#[global] Instance float_eq_dec : EqDecision float.
Proof. solve_decision. Defined.

End F64.

Import F64.

Declare Scope f64_scope.
Delimit Scope f64_scope with f64.
Infix "*" := F64.mul : f64_scope.
Infix "/" := F64.div : f64_scope.
Infix "<?" := F64.ltb : f64_scope.
Infix ">?" := F64.gtb : f64_scope.

(* ===================================================================== *)
(** * Files, directories and the observable behaviour of a script          *)
(* ===================================================================== *)

(** One row of the raw dataset written by [pull_wrds_data.main]: the columns
    of the accounting query, of the market query, and [market_cap]. *)
Record row : Type := Row {
  isin : string;
  year_ : float;
  total_assets : float;
  net_income : float;
  common_equity : float;
  price_close : float;
  shares_outstanding : float;
  market_cap : float
}.

(** One row of the processed dataset: the columns of the raw row (after the
    unit alignment) and the two ratios added by [prepare_data.main]. *)
Record crow : Type := CRow {
  base : row;
  roa : float;
  pb : float
}.

#[global] Instance row_eq_dec : EqDecision row.
Proof. solve_decision. Defined.

#[global] Instance crow_eq_dec : EqDecision crow.
Proof. solve_decision. Defined.

(** What a path of the file system holds. *)
Inductive file : Type :=
  | RawData (df : list row)          (* the parquet file of [pull_wrds_data] *)
  | ProcessedData (df : list crow)   (* the parquet file of [prepare_data] *)
  | Figure (data : list crow).       (* a PNG written by [plt.savefig] *)

Record world : Type := World {
  files : gmap string file;
  dirs : gset string
}.

(** The keys of [config/global_cfg.yaml] the scripts read. *)
Record config : Type := Config {
  prime_standard_isins : string;
  wrds_raw_data : string;
  processed_data : string
}.

(** The lines a script prints.  The original text is given beside each
    constructor; formatted numbers are kept as values. *)
Inductive message : Type :=
  (* prepare_data.py *)
  | MsgCleaningStarts                 (* "🚀 开始数据清洗 (含单位修正)..." *)
  | MsgInputNotFound (path : string)  (* "❌ 找不到文件 {input_path}" *)
  | MsgRawLoaded (n : nat)            (* "📄 原始数据读取成功，共 {len(df)} 行" *)
  | MsgAligningUnits                  (* "🔄 正在执行单位对齐：..." *)
  | MsgStillEmpty                     (* "❌ 依然为空！请检查数据。" *)
  | MsgRule                           (* "-" * 30 *)
  | MsgCleaned (n : nat)              (* "✅ 清洗完成！最终有效样本: {len(df_final)} 行" *)
  | MsgMeanPB                         (* "   (P/B 均值: ...)" *)
  | MsgMeanROA                        (* "   (ROA 均值: ...)" *)
  | MsgSavedTo (path : string)        (* "数据已保存至: {output_path}" *)
  | MsgRunAnalysisNext                (* "🚀 既然清洗成功了，立刻运行: ..." *)
  (* do_analysis.py *)
  | MsgProcessedNotFound              (* "❌ 错误：找不到清洗后的数据文件！请先运行 prepare_data.py" *)
  | MsgSummaryHeader                  (* "📊 数据统计摘要:" *)
  | MsgDescribe (df : list crow)      (* df[['roa', 'pb']].describe() *)
  | MsgTooFewRows                     (* "❌ 样本量太少，无法计算相关性！" *)
  | MsgCorrelation (df : list crow)   (* "✅ 【最终结论】ROA 与 P/B 的相关系数为: ..." *)
  | MsgFigureSaved (path : string)    (* "🖼️ 图表已保存至: {save_path}" *)
  | MsgNewFigure.                     (* "✅ 新图已生成: output/figures/roa_pb_profit_only.png" *)

(** The diagnostic messages are the ones that report a failure (they start
    with the cross mark in the program). *)
Definition is_diagnostic (m : message) : bool :=
  match m with
  | MsgInputNotFound _ | MsgStillEmpty | MsgProcessedNotFound | MsgTooFewRows => true
  | _ => false
  end.

Inductive event : Type :=
  | EPrint (m : message)
  | ERead (path : string)
  | EMakedirs (path : string)
  | EWrite (path : string) (f : file).

Inductive exn : Type :=
  | FileNotFoundError (path : string)
  | KeyError (path : string)
  | ValueError
  | NotImplementedError
  | Exception (msg : string).

(** How a run ends: it runs to the end of the script ([Value]), it calls
    [exit()] ([Exit]), or an exception escapes ([Raise]). *)
Inductive outcome (A : Type) : Type :=
  | Value (a : A)
  | Exit
  | Raise (e : exn).
Arguments Value {A} a.
Arguments Exit {A}.
Arguments Raise {A} e.

#[global] Instance outcome_ret : MRet outcome := fun A a => Value a.

#[global] Instance outcome_bind : MBind outcome := fun A B k c =>
  match c with
  | Value a => k a
  | Exit => Exit
  | Raise e => Raise e
  end.

(** A script step: from a world to an outcome, the new world and the events
    it emitted, in order. *)
Definition io (A : Type) : Type := world -> outcome A * world * list event.

#[global] Instance io_ret : MRet io := fun A a w => (Value a, w, []).

#[global] Instance io_bind : MBind io := fun A B k c w =>
  match c w with
  | (Value a, w1, t1) =>
      match k a w1 with (o, w2, t2) => (o, w2, t1 ++ t2) end
  | (Exit, w1, t1) => (Exit, w1, t1)
  | (Raise e, w1, t1) => (Raise e, w1, t1)
  end.

Definition print (m : message) : io unit := fun w => (Value tt, w, [EPrint m]).

(** Python's [exit()]. *)
Definition exit {A : Type} : io A := fun w => (Exit, w, []).

(** [os.path.exists]. *)
Definition path_exists (p : string) : io bool := fun w =>
  (Value (bool_decide (is_Some (files w !! p) ∨ p ∈ dirs w)), w, []).

(** [os.path.dirname] on a POSIX path: everything up to the last slash, with
    trailing slashes removed unless the head consists of slashes only. *)
Definition slash : ascii := "/"%char.

Fixpoint drop_slashes (l : list ascii) : list ascii :=
  match l with
  | c :: l' => if bool_decide (c = slash) then drop_slashes l' else l
  | [] => []
  end.

Fixpoint drop_basename (l : list ascii) : list ascii :=
  match l with
  | c :: l' => if bool_decide (c = slash) then l else drop_basename l'
  | [] => []
  end.

Definition dirname (p : string) : string :=
  let head_rev := drop_basename (rev (list_ascii_of_string p)) in
  string_of_list_ascii
    (rev (match drop_slashes head_rev with [] => head_rev | l => l end)).

(** [pd.read_parquet] of the raw dataset and the column accesses that follow:
    a missing file raises, and so does a file without the raw columns. *)
Definition read_raw (p : string) : io (list row) := fun w =>
  match files w !! p with
  | Some (RawData df) => (Value df, w, [ERead p])
  | Some _ => (Raise (KeyError p), w, [ERead p])
  | None => (Raise (FileNotFoundError p), w, [])
  end.

(** [pd.read_parquet] of the processed dataset, likewise. *)
Definition read_processed (p : string) : io (list crow) := fun w =>
  match files w !! p with
  | Some (ProcessedData df) => (Value df, w, [ERead p])
  | Some _ => (Raise (KeyError p), w, [ERead p])
  | None => (Raise (FileNotFoundError p), w, [])
  end.

(** [os.makedirs(d, exist_ok=True)]: the empty path raises. *)
Definition makedirs (d : string) : io unit := fun w =>
  if bool_decide (d = EmptyString) then (Raise (FileNotFoundError d), w, [])
  else (Value tt, World (files w) ({[ d ]} ∪ dirs w), [EMakedirs d]).

(** Writing a file ([to_parquet], [savefig]): the directory of the path has to
    exist (the empty directory part is the working directory). *)
Definition write_file (p : string) (f : file) : io unit := fun w =>
  if bool_decide (dirname p = EmptyString ∨ dirname p ∈ dirs w)
  then (Value tt, World (<[ p := f ]> (files w)) (dirs w), [EWrite p f])
  else (Raise (FileNotFoundError p), w, []).

(* ===================================================================== *)
(** * pull_wrds_data.py                                                    *)
(* ===================================================================== *)

Module pull_wrds_data.

(** A row of the accounting query on [comp.g_funda]. *)
Record account : Type := Account {
  a_isin : string;
  a_year : float;
  a_total_assets : float;
  a_net_income : float;
  a_common_equity : float
}.

(** A row of the daily-quotes query on [comp.g_secd]; [datadate] is the day
    number of the date (the query keeps dates between two bounds, so it is
    never null). *)
Record quote : Type := Quote {
  q_isin : string;
  datadate : Z;
  q_price_close : float;
  q_shares_outstanding : float
}.

Definition date_le (a b : quote) : Prop := datadate a <= datadate b.

(** [sort_values('datadate')]: pandas sorts with numpy's quicksort here, which
    fixes the order of the dates and nothing else.  The concrete sort below
    (insertion into a sorted list) is one such order; the properties proved
    of the deduplication hold for every sort that returns a sorted
    permutation. *)
Fixpoint insert_by_date (r : quote) (l : list quote) : list quote :=
  match l with
  | [] => [r]
  | r' :: l' =>
      if datadate r <=? datadate r' then r :: l else r' :: insert_by_date r l'
  end.

Fixpoint sort_values_datadate (df : list quote) : list quote :=
  match df with
  | [] => []
  | r :: df' => insert_by_date r (sort_values_datadate df')
  end.

Definition same_isin (r r' : quote) : bool := bool_decide (q_isin r = q_isin r').

(** [groupby('isin').tail(1)]: of every group the last row, the rows kept in
    the order of the frame. *)
Fixpoint groupby_isin_tail1 (df : list quote) : list quote :=
  match df with
  | [] => []
  | r :: df' =>
      if existsb (same_isin r) df' then groupby_isin_tail1 df'
      else r :: groupby_isin_tail1 df'
  end.

(** [df_mkt_raw.sort_values('datadate').groupby('isin').tail(1)], for a given
    sort. *)
Definition dedup (sort : list quote -> list quote) (df_mkt_raw : list quote) : list quote :=
  groupby_isin_tail1 (sort df_mkt_raw).

Definition df_mkt (df_mkt_raw : list quote) : list quote :=
  dedup sort_values_datadate df_mkt_raw.

(** [pd.merge(df_acct, df_mkt[[...]], on='isin', how='inner')]: every pair of
    rows with the same ISIN, in the order of the left frame. *)
Definition merge (df_acct : list account) (mkt : list quote) : list (account * quote) :=
  flat_map (fun a =>
    map (fun q => (a, q))
        (List.filter (fun q => bool_decide (q_isin q = a_isin a)) mkt)) df_acct.

(** [df_final['market_cap'] = df_final['price_close'] * df_final['shares_outstanding']] *)
Definition with_market_cap (aq : account * quote) : row :=
  let (a, q) := aq in
  Row (a_isin a) (a_year a) (a_total_assets a) (a_net_income a) (a_common_equity a)
      (q_price_close q) (q_shares_outstanding q)
      (q_price_close q * q_shares_outstanding q)%f64.

(** The frame [df_final] that [main] writes to [config['wrds_raw_data']]. *)
Definition df_final (df_acct : list account) (df_mkt_raw : list quote) : list row :=
  map with_market_cap (merge df_acct (df_mkt df_mkt_raw)).

End pull_wrds_data.

(* ===================================================================== *)
(** * code/python/prepare_data.py                                          *)
(* ===================================================================== *)

Module prepare_data.

(** Lines 32-34: the three accounting columns times 1,000,000. *)
Definition scale_units (r : row) : row :=
  Row (isin r) (year_ r)
      (total_assets r * million)%f64
      (net_income r * million)%f64
      (common_equity r * million)%f64
      (price_close r) (shares_outstanding r) (market_cap r).

(** Lines 41-44: the mask [(common_equity > 0) & (total_assets > 0)]. *)
Definition positive_mask (r : row) : bool :=
  (common_equity r >? zero)%f64 && (total_assets r >? zero)%f64.

(** Lines 48 and 52: the two ratios. *)
Definition add_ratios (r : row) : crow :=
  CRow r (net_income r / total_assets r)%f64 (market_cap r / common_equity r)%f64.

(** Line 55: [replace([np.inf, -np.inf], np.nan)], on every column. *)
Definition replace_inf (x : float) : float := if is_inf x then nan else x.

Definition replace_inf_row (c : crow) : crow :=
  let r := base c in
  CRow (Row (isin r) (replace_inf (year_ r))
            (replace_inf (total_assets r)) (replace_inf (net_income r))
            (replace_inf (common_equity r)) (replace_inf (price_close r))
            (replace_inf (shares_outstanding r)) (replace_inf (market_cap r)))
       (replace_inf (roa c)) (replace_inf (pb c)).

(** Line 56: [dropna(subset=['roa', 'pb'])] keeps the rows where neither is NaN. *)
Definition notna (c : crow) : bool := negb (is_nan (roa c)) && negb (is_nan (pb c)).

(** Lines 61-64: the mask of the ratio ranges. *)
Definition in_range (c : crow) : bool :=
  (pb c >? zero)%f64 && (pb c <? fifty)%f64
  && (roa c >? minus_one)%f64 && (roa c <? one)%f64.

(** Lines 32-64: from the frame read to [df_final]. *)
Definition clean (df : list row) : list crow :=
  let df := map scale_units df in
  let df_clean := List.filter positive_mask df in
  let df_clean := map add_ratios df_clean in
  let df_clean := map replace_inf_row df_clean in
  let df_final := List.filter notna df_clean in
  List.filter in_range df_final.

Definition main (cfg : config) : io unit :=
  let input_path := wrds_raw_data cfg in
  let output_path := processed_data cfg in
  print MsgCleaningStarts;;
  found ← path_exists input_path;
  if negb found then
    print (MsgInputNotFound input_path)
  else
    df ← read_raw input_path;
    print (MsgRawLoaded (length df));;
    print MsgAligningUnits;;
    let df_final := clean df in
    match df_final with
    | [] => print MsgStillEmpty
    | _ :: _ =>
        makedirs (dirname output_path);;
        write_file output_path (ProcessedData df_final);;
        print MsgRule;;
        print (MsgCleaned (length df_final));;
        print MsgMeanPB;;
        print MsgMeanROA;;
        print (MsgSavedTo output_path);;
        print MsgRule;;
        print MsgRunAnalysisNext
    end.

End prepare_data.

(* ===================================================================== *)
(** * do_analysis.py                                                       *)
(* ===================================================================== *)

Module do_analysis.

Definition analysis_data : string := "data/generated/analysis_data.parquet".
Definition output_dir : string := "output/figures".
Definition scatter_png : string := "output/figures/roa_pb_scatter.png".
Definition profit_only_png : string := "output/figures/roa_pb_profit_only.png".

(** Line 59: [df[df['roa'] > 0]]. *)
Definition profitable (c : crow) : bool := (roa c >? zero)%f64.

(** The module body.  The calls into matplotlib and seaborn that build a
    figure in memory are taken to return; [savefig] is the write. *)
Definition main (cfg : config) : io unit :=
  let input_path := processed_data cfg in
  found ← path_exists input_path;
  (if negb found then print MsgProcessedNotFound;; exit else mret tt);;
  df ← read_processed input_path;
  print MsgSummaryHeader;;
  print (MsgDescribe df);;
  (if (length df <? 2)%nat then
     print MsgTooFewRows
   else
     print MsgRule;;
     print (MsgCorrelation df);;
     print MsgRule;;
     makedirs output_dir;;
     write_file scatter_png (Figure df);;
     print (MsgFigureSaved scatter_png));;
  (* line 52 onwards is at module level again *)
  df ← read_processed analysis_data;
  let df_profit := List.filter profitable df in
  write_file profit_only_png (Figure df_profit);;
  print MsgNewFigure.

End do_analysis.

(* ===================================================================== *)
(** * code/python/panel_eda_helper_funcs.py                                *)
(* ===================================================================== *)

Module panel_eda_helper_funcs.

(** A dataframe column: a numeric one (a dtype under [np.number], its values
    seen as floats) or one of another dtype. *)
Inductive series : Type :=
  | Numeric (values : list float)
  | NonNumeric.

Record column : Type := Column {
  col_name : string;
  col_data : series
}.

Definition dataframe : Type := list column.

Definition is_number (c : column) : bool :=
  match col_data c with Numeric _ => true | NonNumeric => false end.

Definition values_of (c : column) : list float :=
  match col_data c with Numeric xs => xs | NonNumeric => [] end.

(** [df.select_dtypes(include=np.number)] *)
Definition select_dtypes_number (df : dataframe) : dataframe :=
  List.filter is_number df.

(** A cell of a computed table. *)
Inductive cell : Type :=
  | CFloat (x : float)
  | CInt (z : Z).

(** A table with labelled rows and columns, row by row. *)
Record frame : Type := Frame {
  columns : list string;
  index : list string;
  data : list (list cell)
}.

(** The integer a float is cast to by [astype('int')]: truncation; NaN and
    the infinities cannot be cast. *)
Definition to_int (x : float) : outcome Z :=
  match x with
  | S754_zero _ => Value 0
  | S754_finite s m e => Value (cond_Zopp s (Z.shiftl (Zpos m) e))
  | _ => Raise ValueError
  end.

Section describe.

(** The statistics pandas computes of the values of a numeric column, the
    count apart. *)
Record summary : Type := Summary {
  s_mean : float;
  s_std : float;
  s_min : float;
  s_q25 : float;
  s_median : float;
  s_q75 : float;
  s_max : float
}.

Variable summarize : list float -> summary.

(** [count]: the values that are not NaN. *)
Definition count (xs : list float) : nat :=
  length (List.filter (fun x => negb (is_nan x)) xs).

Definition describe_labels : list string :=
  ["count"; "mean"; "std"; "min"; "25%"; "50%"; "75%"; "max"]%string.

Definition describe_row (c : column) : list cell :=
  let xs := values_of c in
  let s := summarize xs in
  [CFloat (of_Z (Z.of_nat (count xs))); CFloat (s_mean s); CFloat (s_std s);
   CFloat (s_min s); CFloat (s_q25 s); CFloat (s_median s); CFloat (s_q75 s);
   CFloat (s_max s)].

(** [df.describe().transpose()] of a frame of numeric columns: one row per
    column, one column per statistic.  A frame without columns cannot be
    described. *)
Definition describe_transpose (df : dataframe) : outcome frame :=
  match df with
  | [] => Raise ValueError
  | _ => Value (Frame describe_labels (map col_name df) (map describe_row df))
  end.

(** [desc.columns = labels]: the number of labels has to fit. *)
Definition set_columns (labels : list string) (t : frame) : outcome frame :=
  if bool_decide (length labels = length (columns t))
  then Value (Frame labels (index t) (data t))
  else Raise ValueError.

Definition cast_cell (c : cell) : outcome cell :=
  match c with
  | CFloat x => z ← to_int x; mret (CInt z)
  | CInt z => Value (CInt z)
  end.

(** The position of a label among the column labels. *)
Fixpoint position (label : string) (labels : list string) : option nat :=
  match labels with
  | [] => None
  | l :: labels' =>
      if bool_decide (l = label) then Some 0%nat
      else S <$> position label labels'
  end.

Fixpoint cast_at (k : nat) (r : list cell) : outcome (list cell) :=
  match r, k with
  | [], _ => Value []
  | c :: r', O => c' ← cast_cell c; mret (c' :: r')
  | c :: r', S k' => r'' ← cast_at k' r'; mret (c :: r'')
  end.

Fixpoint cast_rows (k : nat) (rows : list (list cell)) : outcome (list (list cell)) :=
  match rows with
  | [] => Value []
  | r :: rows' => r' ← cast_at k r; rows'' ← cast_rows k rows'; mret (r' :: rows'')
  end.

(** [desc.astype({label: 'int'})] *)
Definition astype_int (label : string) (t : frame) : outcome frame :=
  match position label (columns t) with
  | None => Raise (KeyError label)
  | Some k => rows ← cast_rows k (data t); mret (Frame (columns t) (index t) rows)
  end.

(** The labels of line 13-14; the two percent signs are escaped for LaTeX in
    the program ([25 \%] and [75 \%]). *)
Definition stat_labels : list string :=
  ["N"; "Mean"; "Std. dev."; "Min."; "25 \%"; "Median"; "75 \%"; "Max."]%string.

(** Lines 11-15 of [prepare_descriptive_table]: the table that is then handed
    to the pandas Styler and rendered as LaTeX. *)
Definition prepare_descriptive_table (df : dataframe) : outcome frame :=
  let df := select_dtypes_number df in
  desc ← describe_transpose df;
  desc ← set_columns stat_labels desc;
  astype_int "N" desc.

End describe.

Section correlation.

(** What [scipy.stats.spearmanr] returns for each of its two results: one
    number when the data has two columns, a square matrix otherwise. *)
Inductive statistic : Type :=
  | Scalar (x : float)
  | Matrix (m : list (list float)).

(** The two functions of [scipy.stats] the table is built from. *)
Variable spearmanr : list (list float) -> outcome (statistic * statistic).
Variable pearsonr : list float -> list float -> outcome (float * float).

(** A cell of the significance table, of dtype [object]: a boolean or NaN. *)
Inductive pcell : Type :=
  | PBool (b : bool)
  | PNaN.

(** [string.ascii_uppercase[0:n]] has at most 26 letters. *)
Definition n_letters (n_columns : nat) : nat := Nat.min n_columns 26.

Definition has_shape {A : Type} (rows cols : nat) (m : list (list A)) : bool :=
  bool_decide (length m = rows) && forallb (fun r => bool_decide (length r = cols)) m.

(** [pd.DataFrame(data, columns=letters, index=ind)]: a number fills the
    table, a matrix has to have the shape of the labels. *)
Definition DataFrame_of (rows cols : nat) (s : statistic) : outcome (list (list float)) :=
  match s with
  | Scalar x => Value (replicate rows (replicate cols x))
  | Matrix m => if has_shape rows cols m then Value m else Raise ValueError
  end.

(** [t.iloc[i, j] = x] *)
Definition set_iloc {A : Type} (i j : nat) (x : A) (t : list (list A)) : list (list A) :=
  alter (fun r => <[ j := x ]> r) i t.

Definition tables : Type := (list (list float) * list (list pcell))%type.

(** Lines 45-51: the body of the two loops at [(i, j)]. *)
Definition cell_step (cols : list (list float)) (pval : float) (i j : nat)
    (t : tables) : outcome tables :=
  let t1 :=
    if bool_decide (i = j)
    then (set_iloc i j nan (fst t), set_iloc i j PNaN (snd t))
    else t in
  if bool_decide (i < j)%nat then
    '(person, pval_person) ← pearsonr (nth i cols []) (nth j cols []);
    mret (set_iloc i j person (fst t1),
          set_iloc i j (PBool (pval_person <? pval)%f64) (snd t1))
  else Value t1.

(** [for k in l: s = body(k, s)], stopped by the first exception. *)
Fixpoint for_each {S : Type} (l : list nat) (body : nat -> S -> outcome S) (s : S) : outcome S :=
  match l with
  | [] => Value s
  | k :: l' => s' ← body k s; for_each l' body s'
  end.

Definition for_range {S : Type} (n : nat) (body : nat -> S -> outcome S) (s : S) : outcome S :=
  for_each (seq 0 n) body s.

(** Lines 33-51 of [prepare_correlation_table]: the table of coefficients,
    which is handed to the pandas Styler and printed with a NaN as an empty
    cell ([na_rep='']), and the table of significance marks built beside
    it. *)
Definition prepare_correlation_table (df : dataframe) (pval : float) : outcome tables :=
  let df := select_dtypes_number df in
  let cols := map values_of df in
  '(spe, pval_tab) ← spearmanr cols;
  let n := n_letters (length df) in
  spe ← DataFrame_of n n spe;
  pval_tab ← DataFrame_of n n pval_tab;
  let pval_tab := map (map (fun p => PBool (p <? pval)%f64)) pval_tab in
  for_range (length spe) (fun i =>
    for_range (length spe) (fun j => cell_step cols pval i j)) (spe, pval_tab).

End correlation.

(** ** PrepareRegressionTable.__init__ *)

(** [str.lower] on the ASCII letters. *)
Definition lower_ascii (c : ascii) : ascii :=
  let n := nat_of_ascii c in
  if ((65 <=? n) && (n <=? 90))%nat then ascii_of_nat (n + 32) else c.

Fixpoint lower (s : string) : string :=
  match s with
  | EmptyString => EmptyString
  | String c s' => String (lower_ascii c) (lower s')
  end.

(** The arguments of the constructor; of the dataframe, the names of its
    index levels. *)
Record init_args : Type := InitArgs {
  df_index_names : list string;
  dvs : list string;
  idvs : list (list string);
  entity_effects : option (list bool);
  time_effects : option (list bool);
  cluster_entity : option (list bool);
  cluster_time : option (list bool);
  models : option (list string);
  byvar : string
}.

(** The attributes set before the checks. *)
Record self : Type := Self {
  self_dvs : list string;
  self_idvs : list (list string);
  self_entity : string;
  self_time : string;
  self_len : nat;
  self_entity_effects : list bool;
  self_time_effects : list bool;
  self_cluster_entity : list bool;
  self_cluster_time : list bool;
  self_models : list string;
  self_byvar : string
}.

Definition known_models : gset string := {[ "auto"; "ols"; "logit" ]}%string.

(** The lengths of the attributes named in [_equal_len_vars]. *)
Definition equal_len_vars (o : self) : list nat :=
  [length (self_dvs o); length (self_idvs o); length (self_entity_effects o);
   length (self_time_effects o); length (self_cluster_entity o);
   length (self_cluster_time o); length (self_models o)].

(** Lines 126-147. *)
Definition set_attributes (a : init_args) : outcome self :=
  '(entity, time) ←
    match df_index_names a with
    | [e; t] => Value (e, t)
    | _ => Raise ValueError
    end;
  let n := length (dvs a) in
  mret (Self (dvs a) (idvs a) entity time n
          (default (replicate n false) (entity_effects a))
          (default (replicate n false) (time_effects a))
          (default (replicate n false) (cluster_entity a))
          (default (replicate n false) (cluster_time a))
          (match models a with
           | None => replicate n "auto"%string
           | Some ms => map lower ms
           end)
          (byvar a)).

(** Lines 149-163: the four checks.  The constructor goes on to estimate the
    models with the attributes returned here. *)
Definition check_attributes (o : self) : outcome self :=
  if bool_decide (size (list_to_set (self_models o) ∖ known_models) ≠ 0%nat) then
    Raise (Exception "models can only be auto, ols or logit")
  else if bool_decide ("logit"%string ∈ self_models o) then
    Raise NotImplementedError
  else if bool_decide (1 < size (list_to_set (equal_len_vars o) : gset nat))%nat then
    Raise (Exception "The following variables must have the same length")
  else if bool_decide (self_byvar o ≠ EmptyString) then
    Raise (Exception "Byvar is not implemented yet")
  else Value o.

Definition init (a : init_args) : outcome self :=
  o ← set_attributes a; check_attributes o.

End panel_eda_helper_funcs.

(* ===================================================================== *)
(** * Definitions used in the statements                                  *)
(* ===================================================================== *)

Import prepare_data.

(** What [clean] makes of one raw row. *)
Definition clean_row (r : row) : option crow :=
  let s := scale_units r in
  if positive_mask s then
    let c := replace_inf_row (add_ratios s) in
    if notna c && in_range c then Some c else None
  else None.

(** The three parts of a run. *)
Definition outcome_of {A : Type} (r : outcome A * world * list event) : outcome A := r.1.1.

Definition world_of {A : Type} (r : outcome A * world * list event) : world := r.1.2.

Definition trace_of {A : Type} (r : outcome A * world * list event) : list event := r.2.

(** Unfolds the steps of a script. *)
Ltac run_io :=
  unfold mbind, mret, io_bind, io_ret, print, path_exists, read_raw, read_processed,
    makedirs, write_file, exit; cbn.

(** A firm with total assets of 0.7 and net income of 0.1 million, common
    equity of 1 million, 100,000 shares at a price of 20. *)
Definition acct0 : pull_wrds_data.account :=
  pull_wrds_data.Account "DE0001" (of_Z 2023) (of_frac 7 10) (of_frac 1 10) (of_Z 1).

Definition quote0 : pull_wrds_data.quote :=
  pull_wrds_data.Quote "DE0001" 20231229 (of_Z 20) (of_Z 100000).

Definition raw0 : row := pull_wrds_data.with_market_cap (acct0, quote0).

Definition cfg0 : config :=
  Config "data/external/prime_standard_isins.xlsx" "data/pulled/wrds_raw.parquet"
         "data/generated/analysis_data.parquet".

Definition world0 : world :=
  World {[ wrds_raw_data cfg0 := RawData (pull_wrds_data.df_final [acct0] [quote0]) ]} ∅.

Definition out0 : crow := Eval vm_compute in
  match clean [raw0] with c :: _ => c | [] => CRow raw0 nan nan end.

(** A firm whose total assets (in millions) are 10^303: the scaled value is
    beyond the largest float. *)
Definition acct_huge : pull_wrds_data.account :=
  pull_wrds_data.Account "DE0002" (of_Z 2023) (of_Z (10 ^ 303)) (of_Z 1) (of_Z 1).

Definition raw_huge : row := pull_wrds_data.with_market_cap (acct_huge, quote0).

Definition world_huge : world :=
  World {[ wrds_raw_data cfg0 := RawData [raw_huge] ]} ∅.

(** The input path, when it exists, holds a raw dataset. *)
Definition raw_input_readable (cfg : config) (w : world) : Prop :=
  is_Some (files w !! wrds_raw_data cfg) ∨ wrds_raw_data cfg ∈ dirs w ->
  exists df, files w !! wrds_raw_data cfg = Some (RawData df).

(** [os.path.exists(input_path)] holds. *)
Definition input_exists (cfg : config) (w : world) : Prop :=
  is_Some (files w !! wrds_raw_data cfg) ∨ wrds_raw_data cfg ∈ dirs w.

(** The cleaned frame of the input file is not empty. *)
Definition cleaned_nonempty (cfg : config) (w : world) : Prop :=
  exists df, files w !! wrds_raw_data cfg = Some (RawData df) /\ clean df <> [].

(** What a trace shows. *)
Definition writes (t : list event) (p : string) : Prop := exists f, In (EWrite p f) t.

Definition writes_nothing (t : list event) : Prop := forall p f, ~ In (EWrite p f) t.

Definition prints_diagnostic (t : list event) : Prop :=
  exists m, In (EPrint m) t /\ is_diagnostic m = true.

Arguments dirname : simpl never.

(** A processed dataset of one row, as written by [prepare_data.main] in
    [world0], in a directory tree where [output/figures] exists. *)
Definition world_one_row : world :=
  World {[ processed_data cfg0 := ProcessedData [out0] ]}
        {[ "data/generated"; "output/figures" ]}%string.

(** Three profitable firms. *)
Definition rows_three : list crow :=
  [out0; CRow (base out0) (of_frac 1 20) (of_frac 3 2); CRow (base out0) (of_frac 1 5) (of_Z 4)].

(** A configuration whose processed dataset is a sample of one row, beside
    the dataset of three rows at the path that line 56 names. *)
Definition cfg_sample : config :=
  Config "data/external/prime_standard_isins.xlsx" "data/pulled/wrds_raw.parquet"
         "data/generated/analysis_sample.parquet".

Definition world_sample : world :=
  World {[ processed_data cfg_sample := ProcessedData [out0];
           do_analysis.analysis_data := ProcessedData rows_three ]}
        {[ "data/generated"; "output/figures" ]}%string.

Import pull_wrds_data.

(** Quotes of two firms over the last trading days of the year. *)
Definition quotes_example : list quote :=
  [Quote "DE0001" 20231229 (of_Z 20) (of_Z 100000);
   Quote "DE0002" 20231227 (of_Z 7) (of_Z 500);
   Quote "DE0001" 20231227 (of_Z 19) (of_Z 100000);
   Quote "DE0001" 20231228 (of_Z 21) (of_Z 100000)].

Import panel_eda_helper_funcs.

(** The row of the table for a numeric column: its count as an integer, then
    the seven statistics. *)
Definition table_row (summarize : list float -> summary) (c : column) : list cell :=
  let xs := values_of c in
  let s := summarize xs in
  [CInt (Z.of_nat (count xs)); CFloat (s_mean s); CFloat (s_std s);
   CFloat (s_min s); CFloat (s_q25 s); CFloat (s_median s); CFloat (s_q75 s);
   CFloat (s_max s)].

(** A frame with two numeric columns and a column of names. *)
Definition frame_example : dataframe :=
  [Column "isin" NonNumeric;
   Column "roa" (Numeric [of_frac 1 10; nan; of_frac 1 20]);
   Column "pb" (Numeric [of_Z 2; of_Z 3; of_frac 3 2])].

(** A stand-in for the statistics of pandas: all NaN. *)
Definition no_summary (xs : list float) : summary := Summary nan nan nan nan nan nan nan.

(** The list of models after the default and the lowering. *)
Definition lowered_models (a : init_args) : list string :=
  match models a with
  | None => replicate (length (dvs a)) "auto"%string
  | Some ms => map lower ms
  end.

(** The lengths of the seven lists, a list left out being the default of the
    length of [dvs]. *)
Definition list_lengths (a : init_args) : list nat :=
  let n := length (dvs a) in
  [length (dvs a); length (idvs a);
   length (default (replicate n false) (entity_effects a));
   length (default (replicate n false) (time_effects a));
   length (default (replicate n false) (cluster_entity a));
   length (default (replicate n false) (cluster_time a));
   length (lowered_models a)].

(** The four conditions under which the constructor raises. *)
Definition lengths_differ (a : init_args) : Prop :=
  exists n m, n ∈ list_lengths a /\ m ∈ list_lengths a /\ n <> m.

Definition unknown_model (a : init_args) : Prop :=
  exists m, m ∈ lowered_models a /\ m <> "auto"%string /\ m <> "ols"%string /\ m <> "logit"%string.

Definition raises {A : Type} (o : outcome A) : Prop := exists e, o = Raise e.

(** Three regressions, the third of a model that is not implemented. *)
Definition init_args_example : init_args :=
  InitArgs ["isin"; "year"]%string ["pb"; "pb"; "pb"]%string
           [["roa"]; ["roa"]; ["roa"; "size"]]%string
           None None None None (Some ["OLS"; "auto"; "Logit"]%string) "".

(** The entry in row [i] and column [j] of a table. *)
Definition entry {A : Type} (t : list (list A)) (i j : nat) : option A :=
  t !! i ≫= (fun r => r !! j).

(** A table of [n] rows of [n] entries. *)
Definition square {A : Type} (n : nat) (t : list (list A)) : Prop :=
  length t = n /\ forall i r, t !! i = Some r -> length r = n.

(** The coefficient [pearsonr] returns for the columns [i] and [j]. *)
Definition pearson_of (pearsonr : list float -> list float -> outcome (float * float))
    (cols : list (list float)) (i j : nat) : float :=
  match pearsonr (nth i cols []) (nth j cols []) with
  | Value (r, _) => r
  | _ => nan
  end.

(** What the body of the loops leaves in the cell [(i, j)]. *)
Definition target (pearsonr : list float -> list float -> outcome (float * float))
    (cols : list (list float)) (i j : nat) (old : option float) : option float :=
  if decide (i = j) then Some nan
  else if decide (i < j)%nat then Some (pearson_of pearsonr cols i j)
  else old.

(** The entry [(i, j)] of what [spearmanr] returned: the number itself when
    it returned one number. *)
Definition statistic_entry (s : statistic) (i j : nat) : option float :=
  match s with
  | Scalar x => Some x
  | Matrix m => entry m i j
  end.

(** A result of [spearmanr] that [pd.DataFrame] accepts under [n] labels. *)
Definition fits (n : nat) (s : statistic) : Prop :=
  match s with
  | Scalar _ => True
  | Matrix m => has_shape n n m = true
  end.

(** Stand-ins for the two functions of scipy: constant results. *)
Definition spearmanr_half (cols : list (list float)) : outcome (statistic * statistic) :=
  Value (Scalar (of_frac 1 2), Scalar zero).

Definition pearsonr_quarter (x y : list float) : outcome (float * float) :=
  Value (of_frac 1 4, zero).

(* ===================================================================== *)
(** * Further parts of the code                                            *)
(* ===================================================================== *)

(** ** panel_eda_helper_funcs.py: escape_for_latex *)

Module latex.

(** Python's [x.replace(c, r)] for a pattern [c] of one character. *)
Fixpoint replace (c : ascii) (r : string) (x : string) : string :=
  match x with
  | EmptyString => EmptyString
  | String a x' =>
      if bool_decide (a = c) then (r ++ replace c r x')%string
      else String a (replace c r x')
  end.

Definition backslash : ascii := "\"%char.

(** Lines 72-74. *)
Definition chars : list ascii :=
  [backslash; "&"; "%"; "#"; "_"; "{"; "}"; "~"; "^"]%char.

Definition replacements : list string :=
  ["\textbackslash "; "\&"; "\%"; "\#"; "\_"; "\{"; "\}";
   "\textasciitilde "; "\textasciicircum "]%string.

(** Lines 75-77: one pass of [replace] after the other. *)
Definition escape_for_latex (x : string) : string :=
  fold_left (fun x cr => replace (fst cr) (snd cr) x) (combine chars replacements) x.

End latex.

(** ** panel_eda_helper_funcs.py: the methods of PrepareRegressionTable *)

Module PrepareRegressionTable.

Import panel_eda_helper_funcs.

(** The label of lines 207-214 (and 221-228) for a pair of flags. *)
Definition effects_label (e t : bool) : string :=
  if e && t then "Firm and Year"
  else if e then "Firm"
  else if t then "Year"
  else "".

(** Lines 204-215: one label per pair of [zip(entity_effects, time_effects)]. *)
Definition fe_str (o : self) : list string :=
  map (fun et => effects_label (fst et) (snd et))
      (combine (self_entity_effects o) (self_time_effects o)).

(** Lines 218-229. *)
Definition cl_str (o : self) : list string :=
  map (fun et => effects_label (fst et) (snd et))
      (combine (self_cluster_entity o) (self_cluster_time o)).

(** What can go wrong while the models are estimated: an index beyond the
    end of a list, or an exception of the estimator. *)
Inductive error : Type :=
  | IndexError
  | EstimatorError (e : exn).

Inductive result (A : Type) : Type :=
  | Ok (a : A)
  | Err (e : error).
Arguments Ok {A} a.
Arguments Err {A} e.

#[global] Instance result_ret : MRet result := fun A a => Ok a.

#[global] Instance result_bind : MBind result := fun A B k c =>
  match c with
  | Ok a => k a
  | Err e => Err e
  end.

(** [l[i]] *)
Definition getitem {A : Type} (l : list A) (i : nat) : result A :=
  match l !! i with
  | Some a => Ok a
  | None => Err IndexError
  end.

(** [sep.join(parts)] *)
Fixpoint join (sep : string) (parts : list string) : string :=
  match parts with
  | [] => ""
  | [p] => p
  | p :: parts' => (p ++ sep ++ join sep parts')%string
  end.

(** The [vcov] argument of [feols]. *)
Inductive vcov : Type :=
  | Iid
  | CRV1 (clusters : string).

(** Lines 239-252: the formula of model [i]. *)
Definition formula (o : self) (i : nat) : result string :=
  dv ← getitem (self_dvs o) i;
  idv ← getitem (self_idvs o) i;
  let formula_parts := [dv; "~"; join " + " idv]%string in
  e ← getitem (self_entity_effects o) i;
  t ← getitem (self_time_effects o) i;
  let fe_parts := (if e : bool then [self_entity o] else [])
                  ++ (if t : bool then [self_time o] else []) in
  let formula_parts :=
    match fe_parts with
    | [] => formula_parts
    | _ => formula_parts ++ ["|"; join " + " fe_parts]%string
    end in
  mret (join " " formula_parts).

(** Lines 254-263. *)
Definition vcov_of (o : self) (i : nat) : result vcov :=
  e ← getitem (self_cluster_entity o) i;
  t ← getitem (self_cluster_time o) i;
  let vcov_parts := (if e : bool then [self_entity o] else [])
                    ++ (if t : bool then [self_time o] else []) in
  mret (match vcov_parts with
        | [] => Iid
        | _ => CRV1 (join " + " vcov_parts)
        end).

Section results.

(** An estimated model, and [pyfixest]'s [feols] on the dataframe of the
    object: it returns a model or raises. *)
Variable model : Type.
Variable feols : string -> vcov -> exn + model.

Definition estimate (fml : string) (v : vcov) : result model :=
  match feols fml v with
  | inr m => Ok m
  | inl e => Err (EstimatorError e)
  end.

(** Lines 238-272 for the indices of [l]. *)
Fixpoint results_from (o : self) (l : list nat) : result (list model) :=
  match l with
  | [] => Ok []
  | i :: l' =>
      fml ← formula o i;
      v ← vcov_of o i;
      res ← estimate fml v;
      estimated_models ← results_from o l';
      mret (res :: estimated_models)
  end.

(** Lines 232-274: the property [results]. *)
Definition results (o : self) : result (list model) :=
  results_from o (seq 0 (length (self_dvs o))).

End results.

(** Line 348: the digits a coefficient is rounded to and the stars it gets,
    from its p-value. *)
Definition significance (p : float) : nat * string :=
  if (p <? of_frac 1 100)%f64 then (3%nat, "***"%string)
  else if (p <? of_frac 5 100)%f64 then (4%nat, "**"%string)
  else if (p <? of_frac 1 10)%f64 then (5%nat, "*"%string)
  else (6%nat, ""%string).

Section mark_sig.

(** The text of [coeff.round(digits)] in an f-string. *)
Variable round_text : nat -> float -> string.

(** Lines 344-352 for the columns [cols] of the row [i]: of each column its
    label, coefficient and p-value. *)
Fixpoint mark_sig_from (last : string) (cols : list (string * float * float)) : string :=
  match cols with
  | [] => ""
  | (c, coeff, p) :: cols' =>
      let (digits, stars) := significance p in
      (round_text digits coeff ++ stars ++ " "
       ++ (if bool_decide (c <> last) then "&" else "") ++ " "
       ++ mark_sig_from last cols')%string
  end.

(** The last column is looked up inside the loop only. *)
Definition mark_sig (cols : list (string * float * float)) : string :=
  mark_sig_from (List.last (map (fun x => fst (fst x)) cols) "") cols.

End mark_sig.

End PrepareRegressionTable.

(** ** Definitions used in the further statements *)

(** The escape of one character. *)
Definition escape_char (a : ascii) : string :=
  if bool_decide (a = latex.backslash) then "\textbackslash "
  else if bool_decide (a = "&"%char) then "\&"
  else if bool_decide (a = "%"%char) then "\%"
  else if bool_decide (a = "#"%char) then "\#"
  else if bool_decide (a = "_"%char) then "\_"
  else if bool_decide (a = "{"%char) then "\{"
  else if bool_decide (a = "}"%char) then "\}"
  else if bool_decide (a = "~"%char) then "\textasciitilde "
  else if bool_decide (a = "^"%char) then "\textasciicircum "
  else String a "".

Fixpoint escape_chars (x : string) : string :=
  match x with
  | EmptyString => EmptyString
  | String a x' => (escape_char a ++ escape_chars x')%string
  end.

(** A text in which no tilde and no caret occurs, and in which each of
    [& % # _ { }] stands right after a backslash; [after_backslash] tells
    whether the character before the text is a backslash. *)
Fixpoint no_bare_special (after_backslash : bool) (x : string) : bool :=
  match x with
  | EmptyString => true
  | String a x' =>
      (if bool_decide (a = "~"%char \/ a = "^"%char) then false
       else if bool_decide (a ∈ ["&"; "%"; "#"; "_"; "{"; "}"]%char) then after_backslash
       else true)
      && no_bare_special (bool_decide (a = latex.backslash)) x'
  end.

(** Two regressions that pass the checks of the constructor, and the object
    the constructor makes of them. *)
Definition init_args_accepted : init_args :=
  InitArgs ["isin"; "year"]%string ["pb"; "roa"]%string
           [["roa"; "size"]; ["pb"]]%string
           (Some [true; false]) (Some [true; true]) None (Some [false; true])
           (Some ["OLS"; "auto"]%string) "".

Definition self_accepted : self := Eval vm_compute in
  match init init_args_accepted with
  | Value o => o
  | _ => Self [] [] "" "" 0 [] [] [] [] [] ""
  end.

(** A stand-in for [feols]: the model is the formula and the [vcov] it was
    asked for. *)
Definition feols_echo (fml : string) (v : PrepareRegressionTable.vcov)
  : exn + (string * PrepareRegressionTable.vcov) := inr (fml, v).

(** The number of stars of a p-value. *)
Definition stars (p : float) : nat :=
  String.length (snd (PrepareRegressionTable.significance p)).

(** Lines 56-74 of [do_analysis.py], run in the world [w] after the events
    [t]: what the run of the whole script then is. *)
Definition second_block (w : world) (t : list event) : outcome unit * world * list event :=
  match files w !! do_analysis.analysis_data with
  | Some (ProcessedData df) =>
      let fig := Figure (List.filter do_analysis.profitable df) in
      if bool_decide (do_analysis.output_dir ∈ dirs w)
      then (Value tt,
            World (<[ do_analysis.profit_only_png := fig ]> (files w)) (dirs w),
            t ++ [ERead do_analysis.analysis_data;
                  EWrite do_analysis.profit_only_png fig; EPrint MsgNewFigure])
      else (Raise (FileNotFoundError do_analysis.profit_only_png), w,
            t ++ [ERead do_analysis.analysis_data])
  | Some _ =>
      (Raise (KeyError do_analysis.analysis_data), w, t ++ [ERead do_analysis.analysis_data])
  | None => (Raise (FileNotFoundError do_analysis.analysis_data), w, t)
  end.

(** A frame of 27 numeric columns, and a stand-in for [spearmanr] that
    returns square matrices of the size of its input. *)
Definition frame_27 : dataframe :=
  replicate 27 (Column "x" (Numeric [one; zero; one])).

Definition spearmanr_square (cols : list (list float)) : outcome (statistic * statistic) :=
  let k := length cols in
  Value (Matrix (replicate k (replicate k one)), Matrix (replicate k (replicate k zero))).

(* ===================================================================== *)
(** * Properties                                                           *)
(* ===================================================================== *)

(** ** Floats *)

Lemma gtb_zero_positive (x : float) :
  (x >? zero)%f64 = true ->
  x = inf \/ exists m e, x = S754_finite false m e.
Proof.
  destruct x as [s|s| |s m e]; cbn; try discriminate.
  - destruct s; [discriminate | auto].
  - destruct s; [discriminate | eauto].
Qed.

Lemma positive_below_is_finite (x bound : float) :
  (x >? zero)%f64 = true -> (x <? bound)%f64 = true -> is_finite bound = true ->
  is_finite x = true.
Proof.
  intros Hpos Hlt Hb.
  destruct (gtb_zero_positive x Hpos) as [-> | (m & e & ->)]; [|reflexivity].
  destruct bound; cbn in *; discriminate.
Qed.

Lemma between_is_finite (x lo hi : float) :
  (x >? lo)%f64 = true -> (x <? hi)%f64 = true ->
  is_finite lo = true -> is_finite hi = true -> is_finite x = true.
Proof.
  intros Hlo Hhi Flo Fhi.
  destruct x as [s|s| |s m e]; try reflexivity.
  - destruct s.
    + destruct lo; cbn in *; discriminate.
    + destruct hi; cbn in *; discriminate.
  - destruct hi; cbn in *; discriminate.
Qed.

Lemma div_by_inf_not_positive (x : float) (s : bool) :
  (div x (S754_infinity s) >? zero)%f64 = false.
Proof. destruct x; reflexivity. Qed.

Lemma finite_not_inf (x : float) : is_finite x = true -> is_inf x = false.
Proof. destruct x; cbn; congruence. Qed.

(** ** Paths and strings *)

Example dirname_examples :
  map dirname ["a/b/c.parquet"; "c.parquet"; "/c.parquet"; "a//c"; "//c"]%string
  = ["a/b"; ""; "/"; "a"; "//"]%string.
Proof. vm_compute. reflexivity. Qed.

Example lower_examples :
  map panel_eda_helper_funcs.lower ["OLS"; "Logit"; "auto"; "Fixed_Effects 2"]%string
  = ["ols"; "logit"; "auto"; "fixed_effects 2"]%string.
Proof. vm_compute. reflexivity. Qed.

(** ** prepare_data: the cleaned rows *)

Lemma clean_rowwise (df : list row) (out : crow) :
  In out (clean df) <-> exists r, In r df /\ clean_row r = Some out.
Proof.
  unfold clean, clean_row. rewrite !filter_In. split.
  - intros [[Hin Hna] Hrange].
    apply in_map_iff in Hin as (c & <- & Hin).
    apply in_map_iff in Hin as (s & <- & Hin).
    apply filter_In in Hin as [Hin Hpos].
    apply in_map_iff in Hin as (r & <- & Hin).
    exists r. split; [assumption|]. now rewrite Hpos, Hna, Hrange.
  - intros (r & Hin & Hrow).
    destruct (positive_mask (scale_units r)) eqn:Hpos; [|discriminate].
    destruct (notna _) eqn:Hna; [|discriminate].
    destruct (in_range _) eqn:Hrange; [|discriminate].
    injection Hrow as <-. repeat split; try assumption.
    apply in_map_iff. eexists; split; [reflexivity|].
    apply in_map_iff. eexists; split; [reflexivity|].
    apply filter_In. split; [|assumption].
    now apply in_map.
Qed.

Lemma in_range_bounds (c : crow) :
  in_range c = true ->
  (pb c >? zero)%f64 = true /\ (pb c <? fifty)%f64 = true /\
  (roa c >? minus_one)%f64 = true /\ (roa c <? one)%f64 = true.
Proof. unfold in_range. rewrite !andb_true_iff. tauto. Qed.

Lemma in_range_finite (c : crow) :
  in_range c = true -> is_finite (pb c) = true /\ is_finite (roa c) = true.
Proof.
  intros (H1 & H2 & H3 & H4)%in_range_bounds. split.
  - now apply (between_is_finite _ zero fifty).
  - now apply (between_is_finite _ minus_one one).
Qed.

Lemma replace_inf_finite (x : float) :
  is_finite (replace_inf x) = true -> replace_inf x = x.
Proof. unfold replace_inf. destruct x; cbn; congruence. Qed.

(** A row that is kept carries the ratios as they were computed from the
    scaled columns: replacing the infinities changed neither. *)
Lemma clean_row_ratios (r : row) (out : crow) :
  clean_row r = Some out ->
  isin (base out) = isin r /\
  roa out = ((net_income r * million) / (total_assets r * million))%f64 /\
  pb out = (market_cap r / (common_equity r * million))%f64 /\
  market_cap (base out) = market_cap r.
Proof.
  unfold clean_row. intros H.
  destruct (positive_mask (scale_units r)) eqn:Hpos; [|discriminate].
  destruct (notna _) eqn:Hna; [|discriminate].
  destruct (in_range _) eqn:Hrange; [|discriminate].
  injection H as <-.
  pose proof (in_range_finite _ Hrange) as [Hpb Hroa].
  pose proof (in_range_bounds _ Hrange) as (Hpos_pb & _).
  cbn in Hpb, Hroa, Hpos_pb |- *.
  apply replace_inf_finite in Hpb as Epb. apply replace_inf_finite in Hroa as Eroa.
  repeat split; try assumption.
  (* the market capitalisation is finite, or pb would be infinite or NaN *)
  rewrite Epb in Hpb, Hpos_pb.
  unfold replace_inf.
  destruct (market_cap r) as [s|s| |s m e] eqn:Emc; try reflexivity.
  exfalso. cbn in Hpb, Hpos_pb.
  apply andb_true_iff in Hpos as [Hce _]. cbn in Hce.
  destruct (common_equity r * million)%f64 as [s'|s'| |s' m' e']; cbn in *; discriminate.
Qed.

Lemma main_runs (cfg : config) (w : world) :
  let inp := wrds_raw_data cfg in
  let out := processed_data cfg in
  main cfg w =
    if bool_decide (is_Some (files w !! inp) ∨ inp ∈ dirs w) then
      match files w !! inp with
      | Some (RawData df) =>
          let pre := [EPrint MsgCleaningStarts; ERead inp;
                      EPrint (MsgRawLoaded (length df)); EPrint MsgAligningUnits] in
          match clean df with
          | [] => (Value tt, w, pre ++ [EPrint MsgStillEmpty])
          | rows =>
              if bool_decide (dirname out = EmptyString)
              then (Raise (FileNotFoundError (dirname out)), w, pre)
              else (Value tt,
                    World (<[ out := ProcessedData rows ]> (files w))
                          ({[ dirname out ]} ∪ dirs w),
                    pre ++ [EMakedirs (dirname out); EWrite out (ProcessedData rows);
                            EPrint MsgRule; EPrint (MsgCleaned (length rows));
                            EPrint MsgMeanPB; EPrint MsgMeanROA; EPrint (MsgSavedTo out);
                            EPrint MsgRule; EPrint MsgRunAnalysisNext])
          end
      | Some _ => (Raise (KeyError inp), w, [EPrint MsgCleaningStarts; ERead inp])
      | None => (Raise (FileNotFoundError inp), w, [EPrint MsgCleaningStarts])
      end
    else (Value tt, w, [EPrint MsgCleaningStarts; EPrint (MsgInputNotFound inp)]).
Proof.
  intros inp out. unfold main. fold inp out. run_io.
  case_bool_decide; cbn; [|reflexivity].
  destruct (files w !! inp) as [[df|df|df]|] eqn:Hf; cbn; try reflexivity.
  destruct (clean df) as [|c rows] eqn:Hc; cbn; [reflexivity|].
  case_bool_decide; cbn; [reflexivity|].
  rewrite bool_decide_true by (right; set_solver).
  reflexivity.
Qed.

(** Whatever [main] writes is the cleaned frame of the raw file, written to
    the configured output path. *)
Lemma main_writes (cfg : config) (w : world) (p : string) (f : file) :
  In (EWrite p f) (trace_of (main cfg w)) ->
  p = processed_data cfg /\
  exists df, files w !! wrds_raw_data cfg = Some (RawData df) /\
             f = ProcessedData (clean df) /\ clean df <> [].
Proof.
  rewrite main_runs. cbn zeta.
  case_bool_decide; cbn.
  2: { intros [H'|[H'|[]]]; discriminate. }
  destruct (files w !! wrds_raw_data cfg) as [[df|df|df]|] eqn:Hf; cbn.
  2-4: intros H'; repeat (destruct H' as [H'|H']; try discriminate); contradiction.
  destruct (clean df) as [|c rows] eqn:Hc; cbn.
  { intros H'; repeat (destruct H' as [H'|H']; try discriminate); contradiction. }
  case_bool_decide; cbn; intros H';
    repeat (destruct H' as [H'|H']; try discriminate); try contradiction.
  injection H' as <- <-. split; [reflexivity|]. exists df. rewrite Hc. auto.
Qed.

(** *** Example inputs *)

Example df_final_example : pull_wrds_data.df_final [acct0] [quote0] = [raw0].
Proof. reflexivity. Qed.

Example clean_example : clean [raw0] = [out0].
Proof. vm_compute. reflexivity. Qed.

Example main_writes_example :
  In (EWrite (processed_data cfg0) (ProcessedData [out0])) (trace_of (main cfg0 world0)).
Proof. vm_compute. tauto. Qed.

(** C1: the output row of [world0] has a price-to-book ratio of 2, while its
    market capitalisation (2,000,000) divided by the common equity of the
    raw file (1) is 2,000,000. *)
Lemma pb_is_not_market_cap_over_raw_equity :
  exists out,
    In (EWrite (processed_data cfg0) (ProcessedData [out])) (trace_of (main cfg0 world0)) /\
    market_cap raw0 = (price_close raw0 * shares_outstanding raw0)%f64 /\
    pb out = of_Z 2 /\
    (market_cap raw0 / common_equity raw0)%f64 = of_Z 2000000 /\
    pb out <> (market_cap raw0 / common_equity raw0)%f64.
Proof.
  exists out0. split; [exact main_writes_example|].
  repeat split; try (vm_compute; reflexivity).
  vm_compute. discriminate.
Qed.

(** C1 (amended): every row that [main] writes has, as [pb], the market
    capitalisation of its raw row divided by 1,000,000 times the common
    equity of the raw row; for a raw row made by [pull_wrds_data], the market
    capitalisation is the closing price times the shares outstanding. *)
Theorem pb_is_market_cap_over_scaled_equity
    (cfg : config) (w : world) (p : string) (rows : list crow) (out : crow) :
  In (EWrite p (ProcessedData rows)) (trace_of (main cfg w)) ->
  In out rows ->
  exists df r,
    files w !! wrds_raw_data cfg = Some (RawData df) /\ In r df /\
    isin (base out) = isin r /\
    pb out = (market_cap r / (common_equity r * million))%f64 /\
    forall a q, r = pull_wrds_data.with_market_cap (a, q) ->
      pb out = ((pull_wrds_data.q_price_close q * pull_wrds_data.q_shares_outstanding q)
                / (pull_wrds_data.a_common_equity a * million))%f64.
Proof.
  intros Hw Hout.
  apply main_writes in Hw as (_ & df & Hf & [= ->] & _).
  apply clean_rowwise in Hout as (r & Hr & Hrow).
  apply clean_row_ratios in Hrow as (Hisin & _ & Hpb & _).
  exists df, r. repeat split; try assumption.
  intros a q ->. exact Hpb.
Qed.

(** C1, at a concrete input. *)
Lemma pb_is_market_cap_over_scaled_equity_witness :
  exists df r,
    files world0 !! wrds_raw_data cfg0 = Some (RawData df) /\ In r df /\
    isin (base out0) = isin r /\
    pb out0 = (market_cap r / (common_equity r * million))%f64 /\
    forall a q, r = pull_wrds_data.with_market_cap (a, q) ->
      pb out0 = ((pull_wrds_data.q_price_close q * pull_wrds_data.q_shares_outstanding q)
                / (pull_wrds_data.a_common_equity a * million))%f64.
Proof.
  apply (pb_is_market_cap_over_scaled_equity cfg0 world0 (processed_data cfg0) [out0] out0).
  - exact main_writes_example.
  - left; reflexivity.
Defined.

(** C2: in [world0] the raw row has net income 0.1 and total assets 0.7.  The
    program divides 100000.0 by 700000.0 and gets 0.14285714285714285; the
    quotient of the raw values is 0.14285714285714288, one unit in the last
    place above. *)
Lemma roa_is_not_raw_quotient :
  exists out,
    In (EWrite (processed_data cfg0) (ProcessedData [out])) (trace_of (main cfg0 world0)) /\
    net_income raw0 = of_frac 1 10 /\ total_assets raw0 = of_frac 7 10 /\
    roa out = S754_finite false 5146971002709138 (-55) /\
    (net_income raw0 / total_assets raw0)%f64 = S754_finite false 5146971002709139 (-55) /\
    roa out <> (net_income raw0 / total_assets raw0)%f64.
Proof.
  exists out0. split; [exact main_writes_example|].
  repeat split; try (vm_compute; reflexivity).
  vm_compute. discriminate.
Qed.

(** C2 (amended): every row that [main] writes has, as [roa], the float64
    quotient of the scaled columns: net income times 1,000,000, rounded,
    divided by total assets times 1,000,000, rounded. *)
Theorem roa_is_quotient_of_scaled_columns
    (cfg : config) (w : world) (p : string) (rows : list crow) (out : crow) :
  In (EWrite p (ProcessedData rows)) (trace_of (main cfg w)) ->
  In out rows ->
  exists df r,
    files w !! wrds_raw_data cfg = Some (RawData df) /\ In r df /\
    isin (base out) = isin r /\
    roa out = ((net_income r * million) / (total_assets r * million))%f64.
Proof.
  intros Hw Hout.
  apply main_writes in Hw as (_ & df & Hf & [= ->] & _).
  apply clean_rowwise in Hout as (r & Hr & Hrow).
  apply clean_row_ratios in Hrow as (Hisin & Hroa & _).
  exists df, r. auto.
Qed.

(** C2, at a concrete input. *)
Lemma roa_is_quotient_of_scaled_columns_witness :
  exists df r,
    files world0 !! wrds_raw_data cfg0 = Some (RawData df) /\ In r df /\
    isin (base out0) = isin r /\
    roa out0 = ((net_income r * million) / (total_assets r * million))%f64.
Proof.
  apply (roa_is_quotient_of_scaled_columns cfg0 world0 (processed_data cfg0) [out0] out0).
  - exact main_writes_example.
  - left; reflexivity.
Defined.

(** In exact arithmetic the scaling cancels: the difference above is one of
    rounding. *)
Lemma scaling_cancels_in_Q (n t : Q) :
  ~ (t == 0)%Q -> ((n * 1000000) / (t * 1000000) == n / t)%Q.
Proof. intros Ht. field. exact Ht. Qed.

(** What the filters guarantee of a row that is kept. *)
Lemma clean_row_invariants (r : row) (out : crow) :
  clean_row r = Some out ->
  (common_equity (base out) >? zero)%f64 = true /\
  ((total_assets (base out) >? zero)%f64 = true \/
   (total_assets r * million)%f64 = inf /\ total_assets (base out) = nan) /\
  (pb out >? zero)%f64 = true /\ (pb out <? fifty)%f64 = true /\
  (roa out >? minus_one)%f64 = true /\ (roa out <? one)%f64 = true /\
  is_finite (pb out) = true /\ is_finite (roa out) = true.
Proof.
  intros H. pose proof (clean_row_ratios _ _ H) as (_ & _ & Hpb & _).
  unfold clean_row in H.
  destruct (positive_mask (scale_units r)) eqn:Hpos; [|discriminate].
  destruct (notna _) eqn:Hna; [|discriminate].
  destruct (in_range _) eqn:Hrange; [|discriminate].
  injection H as <-.
  pose proof (in_range_finite _ Hrange) as [Fpb Froa].
  pose proof (in_range_bounds _ Hrange) as (B1 & B2 & B3 & B4).
  apply andb_true_iff in Hpos as [Hce Hta]. cbn in Hce, Hta.
  split; [|split]; [| |tauto].
  - cbn. destruct (gtb_zero_positive _ Hce) as [E | (m & e & E)]; rewrite E.
    + exfalso. rewrite Hpb, E in B1. unfold inf in B1.
      now rewrite div_by_inf_not_positive in B1.
    + reflexivity.
  - cbn. destruct (gtb_zero_positive _ Hta) as [E | (m & e & E)]; rewrite E.
    + right. split; reflexivity.
    + left. reflexivity.
Qed.

(** Every row that [main] writes has positive common equity, ratios within
    their ranges, hence finite, and total assets that are positive unless
    the scaled column had overflowed. *)
Lemma written_rows_invariants
    (cfg : config) (w : world) (p : string) (rows : list crow) (out : crow) :
  In (EWrite p (ProcessedData rows)) (trace_of (main cfg w)) ->
  In out rows ->
  (common_equity (base out) >? zero)%f64 = true /\
  ((total_assets (base out) >? zero)%f64 = true \/ total_assets (base out) = nan) /\
  (pb out >? zero)%f64 = true /\ (pb out <? fifty)%f64 = true /\
  (roa out >? minus_one)%f64 = true /\ (roa out <? one)%f64 = true /\
  is_finite (pb out) = true /\ is_finite (roa out) = true.
Proof.
  intros Hw Hout.
  apply main_writes in Hw as (_ & df & Hf & [= ->] & _).
  apply clean_rowwise in Hout as (r & Hr & Hrow).
  apply clean_row_invariants in Hrow. tauto.
Qed.

(** C3: with total assets of 10^303 in the raw file the scaled column is
    [+inf]; it passes [total_assets > 0], the return on assets is 0, line 55
    turns the column into NaN, and the row is written: its [total_assets] is
    not greater than zero. *)
Theorem total_assets_nan_is_written :
  exists out,
    In (EWrite (processed_data cfg0) (ProcessedData [out])) (trace_of (main cfg0 world_huge)) /\
    (total_assets raw_huge * million)%f64 = inf /\
    roa out = zero /\ pb out = of_Z 2 /\
    total_assets (base out) = nan /\
    (total_assets (base out) >? zero)%f64 = false.
Proof.
  eexists. split; [vm_compute; right; right; right; right; right; left; reflexivity|].
  repeat split.
Qed.



(** In [world0] the file is written; without the input file, and with an
    input file whose rows are all dropped, it is not. *)
Example main_writes_in_world0 : writes (trace_of (main cfg0 world0)) (processed_data cfg0).
Proof. eexists. exact main_writes_example. Qed.

Example main_without_input :
  main cfg0 (World ∅ ∅)
  = (Value tt, World ∅ ∅,
     [EPrint MsgCleaningStarts; EPrint (MsgInputNotFound (wrds_raw_data cfg0))]).
Proof. reflexivity. Qed.

(** ** do_analysis *)

(** C10: when the configured processed-data path does not exist, the script
    prints its diagnostic and exits at once: the run is the single print,
    it ends in [exit()], nothing is read, nothing is written, and the file
    system is as it was. *)
Theorem do_analysis_exits_without_input (cfg : config) (w : world) :
  files w !! processed_data cfg = None ->
  processed_data cfg ∉ dirs w ->
  do_analysis.main cfg w = (Exit, w, [EPrint MsgProcessedNotFound]) /\
  is_diagnostic MsgProcessedNotFound = true.
Proof.
  intros Hf Hd. split; [|reflexivity].
  unfold do_analysis.main. run_io.
  rewrite bool_decide_false; [reflexivity|].
  intros [[f Hs]|Hin]; [congruence | contradiction].
Qed.

(** C10, at a concrete input. *)
Lemma do_analysis_exits_without_input_witness :
  do_analysis.main cfg0 (World ∅ ∅) = (Exit, World ∅ ∅, [EPrint MsgProcessedNotFound]) /\
  is_diagnostic MsgProcessedNotFound = true.
Proof.
  apply (do_analysis_exits_without_input cfg0 (World ∅ ∅)).
  - reflexivity.
  - vm_compute. intros H; inversion H.
Defined.

(** The run of the script on a processed dataset of fewer than two rows:
    after the diagnostic the script goes on with line 52, reads
    [data/generated/analysis_data.parquet] and, when [output/figures] exists,
    saves the second figure. *)
Lemma do_analysis_small_sample (cfg : config) (w : world) (df df2 : list crow) :
  files w !! processed_data cfg = Some (ProcessedData df) ->
  (length df < 2)%nat ->
  files w !! do_analysis.analysis_data = Some (ProcessedData df2) ->
  do_analysis.output_dir ∈ dirs w ->
  do_analysis.main cfg w
  = (Value tt,
     World (<[ do_analysis.profit_only_png :=
                 Figure (List.filter do_analysis.profitable df2) ]> (files w)) (dirs w),
     [ERead (processed_data cfg); EPrint MsgSummaryHeader; EPrint (MsgDescribe df);
      EPrint MsgTooFewRows;
      ERead do_analysis.analysis_data;
      EWrite do_analysis.profit_only_png (Figure (List.filter do_analysis.profitable df2));
      EPrint MsgNewFigure]).
Proof.
  intros Hf Hlen Hf2 Hdir.
  assert (Hd : dirname do_analysis.profit_only_png = do_analysis.output_dir)
    by (vm_compute; reflexivity).
  unfold do_analysis.main. run_io.
  rewrite bool_decide_true by (left; by eexists). cbn.
  rewrite Hf. cbn.
  destruct df as [|c [|c' df]]; cbn in Hlen; try lia; cbn;
    rewrite Hf2; cbn; rewrite Hd;
    (rewrite bool_decide_true by (right; exact Hdir)); reflexivity.
Qed.

(** C4: with a processed dataset of one row the script prints the
    diagnostic of line 26 and does not exit: it goes on with line 52, reads
    [data/generated/analysis_data.parquet] and writes the figure
    [output/figures/roa_pb_profit_only.png]. *)
Theorem do_analysis_small_sample_writes_figure :
  let r := do_analysis.main cfg_sample world_sample in
  outcome_of r = Value tt /\
  trace_of r
  = [ERead (processed_data cfg_sample); EPrint MsgSummaryHeader;
     EPrint (MsgDescribe [out0]); EPrint MsgTooFewRows;
     ERead do_analysis.analysis_data;
     EWrite do_analysis.profit_only_png (Figure rows_three);
     EPrint MsgNewFigure] /\
  files (world_of r) !! do_analysis.profit_only_png = Some (Figure rows_three).
Proof.
  assert (H : files world_sample !! processed_data cfg_sample = Some (ProcessedData [out0]))
    by (vm_compute; reflexivity).
  assert (H2 : files world_sample !! do_analysis.analysis_data
               = Some (ProcessedData rows_three))
    by (vm_compute; reflexivity).
  assert (Hdir : do_analysis.output_dir ∈ dirs world_sample)
    by (vm_compute; set_solver).
  cbn zeta.
  rewrite (do_analysis_small_sample cfg_sample world_sample [out0] rows_three
             H (le_n 2) H2 Hdir).
  repeat split.
Qed.

(** The same with the one-row dataset at the path of line 56 itself. *)
Example do_analysis_one_row_file :
  let r := do_analysis.main cfg0 world_one_row in
  outcome_of r = Value tt /\
  trace_of r
  = [ERead (processed_data cfg0); EPrint MsgSummaryHeader; EPrint (MsgDescribe [out0]);
     EPrint MsgTooFewRows;
     ERead do_analysis.analysis_data;
     EWrite do_analysis.profit_only_png (Figure [out0]);
     EPrint MsgNewFigure] /\
  files (world_of r) !! do_analysis.profit_only_png = Some (Figure [out0]).
Proof.
  assert (H : files world_one_row !! processed_data cfg0 = Some (ProcessedData [out0]))
    by reflexivity.
  assert (Hdir : do_analysis.output_dir ∈ dirs world_one_row)
    by (vm_compute; set_solver).
  cbn zeta.
  rewrite (do_analysis_small_sample cfg0 world_one_row [out0] [out0] H (le_n 2) H Hdir).
  repeat split.
Qed.

(** With two rows or more the first figure is written as well, after
    [output/figures] has been made. *)
Example do_analysis_three_rows :
  trace_of (do_analysis.main cfg0
              (World {[ processed_data cfg0 := ProcessedData rows_three ]} ∅))
  = [ERead (processed_data cfg0); EPrint MsgSummaryHeader; EPrint (MsgDescribe rows_three);
     EPrint MsgRule; EPrint (MsgCorrelation rows_three); EPrint MsgRule;
     EMakedirs do_analysis.output_dir;
     EWrite do_analysis.scatter_png (Figure rows_three);
     EPrint (MsgFigureSaved do_analysis.scatter_png);
     ERead do_analysis.analysis_data;
     EWrite do_analysis.profit_only_png (Figure rows_three);
     EPrint MsgNewFigure].
Proof. vm_compute. reflexivity. Qed.

(** ** pull_wrds_data: the deduplication of the market data *)

Lemma same_isin_true (r r' : quote) : same_isin r r' = true <-> q_isin r = q_isin r'.
Proof. unfold same_isin. apply bool_decide_eq_true. Qed.

Lemma tail1_subset (l : list quote) (r : quote) :
  In r (groupby_isin_tail1 l) -> In r l.
Proof.
  induction l as [|x l IH]; cbn; [tauto|].
  destruct (existsb (same_isin x) l); cbn; intuition.
Qed.

Lemma tail1_one_row_per_isin (l : list quote) :
  List.NoDup (map q_isin (groupby_isin_tail1 l)).
Proof.
  induction l as [|x l IH]; cbn; [constructor|].
  destruct (existsb (same_isin x) l) eqn:Hex; [exact IH|].
  cbn. constructor; [|exact IH].
  intros Hin. apply in_map_iff in Hin as (r & Hisin & Hr).
  apply tail1_subset in Hr.
  assert (existsb (same_isin x) l = true); [|congruence].
  apply existsb_exists. exists r. split; [assumption|].
  now apply same_isin_true.
Qed.

(** Every ISIN of the frame is still there afterwards. *)
Lemma tail1_keeps_every_isin (l : list quote) (r : quote) :
  In r l -> In (q_isin r) (map q_isin (groupby_isin_tail1 l)).
Proof.
  revert r. induction l as [|x l IH]; intros r; cbn; [tauto|].
  intros [-> | Hr].
  - destruct (existsb (same_isin r) l) eqn:Hex.
    + apply existsb_exists in Hex as (r' & Hr' & Hsame).
      apply same_isin_true in Hsame. rewrite Hsame. now apply IH.
    + now left.
  - destruct (existsb (same_isin x) l); [|right]; now apply IH.
Qed.

Lemma tail1_latest (l : list quote) :
  StronglySorted date_le l ->
  forall r, In r (groupby_isin_tail1 l) ->
  forall r', In r' l -> q_isin r' = q_isin r -> datadate r' <= datadate r.
Proof.
  induction 1 as [|x l Hsorted IH Hx]; cbn; [tauto|].
  rewrite List.Forall_forall in Hx.
  intros r Hr r' Hr' Hisin.
  destruct (existsb (same_isin x) l) eqn:Hex.
  - destruct Hr' as [<- | Hr'].
    + apply Hx. now apply tail1_subset.
    + now apply (IH r).
  - destruct Hr as [<- | Hr].
    + destruct Hr' as [<- | Hr']; [lia|].
      exfalso. assert (existsb (same_isin x) l = true); [|congruence].
      apply existsb_exists. exists r'. split; [assumption|].
      now apply same_isin_true.
    + destruct Hr' as [<- | Hr'].
      * apply Hx. now apply tail1_subset.
      * now apply (IH r).
Qed.

Lemma date_le_transitive : Relations_1.Transitive date_le.
Proof. intros a b c. unfold date_le. lia. Qed.

(** C8: for every sort that returns a permutation of the frame ordered by
    date, the deduplicated frame has each ISIN at most once, its rows are rows
    of the query result, and the row kept for an ISIN has a date that no row
    of that ISIN exceeds. *)
Theorem dedup_keeps_latest_row_per_isin
    (sort : list quote -> list quote) (df_mkt_raw : list quote) :
  (forall l, Permutation (sort l) l) ->
  (forall l, Sorted date_le (sort l)) ->
  List.NoDup (map q_isin (dedup sort df_mkt_raw)) /\
  forall r, In r (dedup sort df_mkt_raw) ->
    In r df_mkt_raw /\
    forall r', In r' df_mkt_raw -> q_isin r' = q_isin r -> datadate r' <= datadate r.
Proof.
  intros Hperm Hsorted. unfold dedup. split; [apply tail1_one_row_per_isin|].
  intros r Hr. split.
  - apply (Permutation_in _ (Hperm df_mkt_raw)). now apply tail1_subset.
  - intros r' Hr' Hisin.
    apply (tail1_latest (sort df_mkt_raw)); try assumption.
    + apply Sorted_StronglySorted; [exact date_le_transitive | apply Hsorted].
    + apply (Permutation_in _ (Permutation_sym (Hperm df_mkt_raw))). assumption.
Qed.

Lemma insert_by_date_perm (r : quote) (l : list quote) :
  Permutation (insert_by_date r l) (r :: l).
Proof.
  induction l as [|x l IH]; cbn; [reflexivity|].
  destruct (datadate r <=? datadate x); [reflexivity|].
  rewrite IH. apply perm_swap.
Qed.

Lemma sort_values_datadate_perm (l : list quote) :
  Permutation (sort_values_datadate l) l.
Proof.
  induction l as [|x l IH]; cbn; [reflexivity|].
  rewrite insert_by_date_perm. now constructor.
Qed.

Lemma insert_by_date_sorted (r : quote) (l : list quote) :
  Sorted date_le l -> Sorted date_le (insert_by_date r l).
Proof.
  induction 1 as [|x l Hl IH Hx]; cbn.
  - repeat constructor.
  - destruct (datadate r <=? datadate x) eqn:Hle.
    + apply Z.leb_le in Hle. repeat constructor; assumption.
    + apply Z.leb_gt in Hle. constructor; [assumption|].
      destruct l as [|y l]; cbn.
      * constructor. unfold date_le. lia.
      * destruct (datadate r <=? datadate y); constructor.
        -- unfold date_le. lia.
        -- now inversion Hx.
Qed.

Lemma sort_values_datadate_sorted (l : list quote) :
  Sorted date_le (sort_values_datadate l).
Proof.
  induction l as [|x l IH]; cbn; [constructor|].
  now apply insert_by_date_sorted.
Qed.

Example df_mkt_example :
  df_mkt quotes_example
  = [Quote "DE0002" 20231227 (of_Z 7) (of_Z 500);
     Quote "DE0001" 20231229 (of_Z 20) (of_Z 100000)].
Proof. vm_compute. reflexivity. Qed.

(** C8, at a concrete input. *)
Lemma dedup_keeps_latest_row_per_isin_witness :
  List.NoDup (map q_isin (df_mkt quotes_example)) /\
  forall r, In r (df_mkt quotes_example) ->
    In r quotes_example /\
    forall r', In r' quotes_example -> q_isin r' = q_isin r -> datadate r' <= datadate r.
Proof.
  apply (dedup_keeps_latest_row_per_isin sort_values_datadate quotes_example).
  - exact sort_values_datadate_perm.
  - exact sort_values_datadate_sorted.
Defined.

(** ** Integers as floats *)

Lemma digits2_pos_lower (p : positive) :
  2 ^ (Zpos (digits2_pos p) - 1) <= Zpos p.
Proof.
  induction p as [p IH|p IH|]; cbn [digits2_pos]; [| |cbn; lia].
  - rewrite Pos2Z.inj_succ.
    replace (Z.succ (Zpos (digits2_pos p)) - 1) with (Z.succ (Zpos (digits2_pos p) - 1)) by lia.
    rewrite Z.pow_succ_r by lia. lia.
  - rewrite Pos2Z.inj_succ.
    replace (Z.succ (Zpos (digits2_pos p)) - 1) with (Z.succ (Zpos (digits2_pos p) - 1)) by lia.
    rewrite Z.pow_succ_r by lia. lia.
Qed.

Lemma digits2_pos_below (p : positive) (k : Z) :
  Zpos p < 2 ^ k -> Zpos (digits2_pos p) <= k.
Proof.
  intros Hp. destruct (Z_le_gt_dec (Zpos (digits2_pos p)) k) as [|Hgt]; [assumption|].
  exfalso. pose proof (digits2_pos_lower p) as Hlow.
  assert (0 <= k).
  { destruct (Z.lt_ge_cases k 0); [|assumption]. rewrite Z.pow_neg_r in Hp by assumption. lia. }
  assert (2 ^ k <= 2 ^ (Zpos (digits2_pos p) - 1)) by (apply Z.pow_le_mono_r; lia).
  lia.
Qed.

Lemma digits2_pos_iter_xO (p d : positive) :
  Zpos (digits2_pos (Pos.iter xO p d)) = Zpos (digits2_pos p) + Zpos d.
Proof.
  induction d as [|d IH] using Pos.peano_ind.
  - cbn. lia.
  - rewrite Pos.iter_succ. cbn [digits2_pos]. rewrite Pos2Z.inj_succ, IH. lia.
Qed.

Lemma iter_xO_value (p d : positive) :
  Zpos (Pos.iter xO p d) = Zpos p * 2 ^ Zpos d.
Proof.
  induction d as [|d IH] using Pos.peano_ind.
  - cbn. lia.
  - rewrite Pos.iter_succ, Pos2Z.inj_succ, Z.pow_succ_r by lia.
    rewrite Pos2Z.inj_xO, IH. lia.
Qed.

(** A mantissa that is already in canonical form is not rounded. *)
Lemma binary_round_aux_canonical (m : positive) (e : Z) :
  fexp prec emax (Zpos (digits2_pos m) + e) = e -> e <= emax - prec ->
  binary_round_aux prec emax false (Zpos m) e loc_Exact = S754_finite false m e.
Proof.
  intros Hcanon Hle.
  unfold binary_round_aux, shr_fexp. cbn [Zdigits2 shr_record_of_loc].
  rewrite Hcanon, Z.sub_diag. cbn [shr loc_of_shr_record shr_m round_nearest_even Zdigits2].
  rewrite Hcanon, Z.sub_diag. cbn [shr shr_m].
  apply Z.leb_le in Hle. now rewrite Hle.
Qed.

(** Up to 2^53 the integers are floats, and casting back returns them. *)
Lemma to_int_of_Z (z : Z) :
  0 <= z < 2 ^ 53 -> panel_eda_helper_funcs.to_int (of_Z z) = Value z.
Proof.
  intros [Hlo Hhi]. destruct z as [|p|p]; [reflexivity| |lia].
  pose proof (digits2_pos_below p 53 Hhi) as Hd.
  unfold of_Z, binary_normalize, binary_round, shl_align.
  assert (Hfexp : fexp prec emax (Zpos (digits2_pos p) + 0) = Zpos (digits2_pos p) - 53).
  { unfold fexp, emin, prec, emax. lia. }
  rewrite Hfexp.
  destruct (Zpos (digits2_pos p) - 53 - 0) as [|d|d] eqn:Hshift; [|lia|].
  - rewrite binary_round_aux_canonical.
    + cbn. reflexivity.
    + unfold fexp, emin, prec, emax. lia.
    + unfold prec, emax. lia.
  - rewrite binary_round_aux_canonical.
    + unfold panel_eda_helper_funcs.to_int. cbn [cond_Zopp]. f_equal.
      rewrite iter_xO_value.
      replace (Zpos (digits2_pos p) - 53) with (- Zpos d) by lia.
      rewrite Z.shiftl_opp_r, Z.shiftr_div_pow2 by lia.
      apply Z.div_mul. apply Z.pow_nonzero; lia.
    + rewrite digits2_pos_iter_xO. unfold fexp, emin, prec, emax. lia.
    + unfold prec, emax. lia.
Qed.

(** ** panel_eda_helper_funcs: the descriptive table *)

Lemma cast_rows_describe (summarize : list float -> summary) (df : dataframe) :
  List.Forall (fun c => Z.of_nat (length (values_of c)) < 2 ^ 53) df ->
  cast_rows 0 (map (describe_row summarize) df) = Value (map (table_row summarize) df).
Proof.
  induction 1 as [|c df Hc Hdf IH]; [reflexivity|].
  cbn [map cast_rows]. rewrite IH.
  unfold describe_row, table_row. cbn [cast_at cast_cell].
  rewrite to_int_of_Z; [reflexivity|].
  split; [lia|].
  assert (count (values_of c) <= length (values_of c))%nat by apply filter_length_le.
  lia.
Qed.



Example descriptive_table_example :
  prepare_descriptive_table no_summary frame_example
  = Value (Frame stat_labels ["roa"; "pb"]%string
             [[CInt 2; CFloat nan; CFloat nan; CFloat nan; CFloat nan; CFloat nan;
               CFloat nan; CFloat nan];
              [CInt 3; CFloat nan; CFloat nan; CFloat nan; CFloat nan; CFloat nan;
               CFloat nan; CFloat nan]]).
Proof. vm_compute. reflexivity. Qed.

Example descriptive_table_without_numbers :
  prepare_descriptive_table no_summary [Column "isin" NonNumeric] = Raise ValueError.
Proof. reflexivity. Qed.

(** ** panel_eda_helper_funcs: the checks of the constructor *)

Lemma two_elements_size (X : gset nat) (n m : nat) :
  n ∈ X -> m ∈ X -> n <> m -> (1 < size X)%nat.
Proof.
  intros Hn Hm Hne.
  destruct (size X) as [|[|k]] eqn:Hsize; [| |lia].
  - apply size_empty_inv in Hsize. set_solver.
  - apply size_1_elem_of in Hsize as [x Hx]. set_solver.
Qed.

Lemma set_attributes_lengths (a : init_args) (o : self) :
  set_attributes a = Value o ->
  equal_len_vars o = list_lengths a /\ self_models o = lowered_models a /\
  self_byvar o = byvar a.
Proof.
  unfold set_attributes.
  destruct (df_index_names a) as [|e [|t [|? ?]]]; cbn; try discriminate.
  intros [= <-]. repeat split.
Qed.

(** C9: the constructor raises when the seven lists differ in length, when a
    lowered model is none of auto, ols and logit, when logit is among the
    lowered models, and when [byvar] is not the empty string. *)
Theorem init_raises (a : init_args) :
  lengths_differ a \/ unknown_model a \/ "logit"%string ∈ lowered_models a
  \/ byvar a <> EmptyString ->
  raises (init a).
Proof.
  intros H. unfold raises, init.
  destruct (set_attributes a) as [o| |e] eqn:Hset; cbn; [| eauto | eauto].
  - apply set_attributes_lengths in Hset as (Hlen & Hmod & Hby).
    unfold check_attributes. rewrite Hlen, Hmod, Hby.
    case_bool_decide as Hknown; [eauto|].
    case_bool_decide as Hlogit; [eauto|].
    case_bool_decide as Hsize; [eauto|].
    case_bool_decide as Hbyvar; [eauto|].
    exfalso. destruct H as [(n & m & Hn & Hm & Hne) | [(m & Hm & Ha & Ho & Hg) | [Hl | Hb]]].
    + apply Hsize. apply (two_elements_size _ n m); [set_solver | set_solver | assumption].
    + apply size_empty_inv in Hknown. unfold known_models in Hknown. set_solver.
    + contradiction.
    + congruence.
  - unfold set_attributes in Hset.
    destruct (df_index_names a) as [|? [|? [|? ?]]]; cbn in Hset; discriminate.
Qed.

(** C9, at a concrete input. *)
Lemma init_raises_witness : raises (init init_args_example).
Proof.
  apply (init_raises init_args_example).
  right; right; left. vm_compute. set_solver.
Defined.

Example init_example_logit : init init_args_example = Raise NotImplementedError.
Proof. vm_compute. reflexivity. Qed.

(** With arguments that pass the four checks the constructor goes on. *)
Example init_example_passes :
  exists o, init (InitArgs ["isin"; "year"]%string ["pb"; "roa"]%string
                    [["roa"]; ["pb"]]%string None None
                    (Some [true; false]) None (Some ["OLS"; "auto"]%string) "")
            = Value o.
Proof. eexists. vm_compute. reflexivity. Qed.

(** ** panel_eda_helper_funcs: the correlation table *)

Lemma has_shape_square {A : Type} (n : nat) (t : list (list A)) :
  has_shape n n t = true -> square n t.
Proof.
  unfold has_shape, square. rewrite andb_true_iff, bool_decide_eq_true, forallb_forall.
  intros [Hlen Hrows]. split; [assumption|].
  intros i r Hr. eapply bool_decide_eq_true_1, Hrows.
  apply list_elem_of_In. eapply list_elem_of_lookup_2, Hr.
Qed.

Lemma square_replicate {A : Type} (n : nat) (x : A) :
  square n (replicate n (replicate n x)).
Proof.
  split; [apply length_replicate|].
  intros i r [-> _]%lookup_replicate. apply length_replicate.
Qed.

Lemma entry_replicate {A : Type} (n i j : nat) (x : A) :
  (i < n)%nat -> (j < n)%nat -> entry (replicate n (replicate n x)) i j = Some x.
Proof.
  intros Hi Hj. unfold entry.
  rewrite lookup_replicate_2 by assumption. cbn.
  now apply lookup_replicate_2.
Qed.

Lemma square_set_iloc {A : Type} (n i j : nat) (x : A) (t : list (list A)) :
  square n t -> square n (set_iloc i j x t).
Proof.
  intros [Hlen Hrows]. unfold set_iloc. split; [now rewrite length_alter|].
  intros i' r Hr.
  destruct (decide (i = i')) as [<-|Hne].
  - rewrite list_lookup_alter_eq in Hr.
    destruct (t !! i) as [r0|] eqn:Hr0; cbn in Hr; [|discriminate].
    injection Hr as <-. rewrite length_insert. eauto.
  - rewrite list_lookup_alter_ne in Hr by assumption. eauto.
Qed.

Lemma entry_set_iloc {A : Type} (n i j i' j' : nat) (x : A) (t : list (list A)) :
  square n t -> (i < n)%nat -> (j < n)%nat ->
  entry (set_iloc i j x t) i' j'
  = if decide (i' = i /\ j' = j) then Some x else entry t i' j'.
Proof.
  intros [Hlen Hrows] Hi Hj. unfold entry, set_iloc.
  destruct (decide (i = i')) as [<-|Hne].
  - rewrite list_lookup_alter_eq.
    destruct (t !! i) as [r|] eqn:Hr.
    2: { apply lookup_ge_None in Hr. lia. }
    cbn. destruct (decide (j = j')) as [<-|Hnej].
    + rewrite decide_True by auto.
      apply list_lookup_insert_eq. rewrite (Hrows i r Hr). assumption.
    + rewrite decide_False by (intros [_ ?]; congruence).
      now apply list_lookup_insert_ne.
  - rewrite list_lookup_alter_ne by assumption.
    rewrite decide_False by (intros [? _]; congruence). reflexivity.
Qed.

Section correlation_loops.

Variable pearsonr : list float -> list float -> outcome (float * float).
Variable cols : list (list float).
Variable pval : float.
Variable n : nat.

(** Above the diagonal [pearsonr] returns. *)
Hypothesis pearsonr_returns : forall i j, (i < j)%nat -> (j < n)%nat ->
  exists r q, pearsonr (nth i cols []) (nth j cols []) = Value (r, q).

Lemma target_idempotent (i j : nat) (old : option float) :
  target pearsonr cols i j (target pearsonr cols i j old) = target pearsonr cols i j old.
Proof. unfold target. repeat case_decide; reflexivity. Qed.

Lemma cell_step_spec (i j : nat) (t : tables) :
  (i < n)%nat -> (j < n)%nat -> square n (fst t) ->
  exists t', cell_step pearsonr cols pval i j t = Value t' /\ square n (fst t') /\
    forall i' j', entry (fst t') i' j'
      = if decide (i' = i /\ j' = j) then target pearsonr cols i j (entry (fst t) i j)
        else entry (fst t) i' j'.
Proof.
  intros Hi Hj Hsq. unfold cell_step, target.
  destruct (decide (i = j)) as [<-|Hne].
  - rewrite (bool_decide_true (i = i)) by reflexivity.
    rewrite (bool_decide_false (i < i)%nat) by lia. eexists. split; [reflexivity|]. cbn [fst].
    split; [now apply square_set_iloc|].
    intros i' j'. now apply (entry_set_iloc n).
  - rewrite (bool_decide_false (i = j)) by assumption.
    destruct (decide (i < j)%nat) as [Hlt|Hge].
    + rewrite (bool_decide_true (i < j)%nat) by assumption.
      unfold pearson_of.
      destruct (pearsonr_returns i j Hlt Hj) as (r & q & ->). cbn.
      eexists. split; [reflexivity|]. cbn [fst].
      split; [now apply square_set_iloc|].
      intros i' j'. now apply (entry_set_iloc n).
    + rewrite (bool_decide_false (i < j)%nat) by assumption.
      eexists. split; [reflexivity|]. split; [assumption|].
      intros i' j'. case_decide as Heq; [|reflexivity]. now destruct Heq as [-> ->].
Qed.

Lemma inner_loop_spec (i : nat) (js : list nat) (t : tables) :
  (i < n)%nat -> List.Forall (fun j => j < n)%nat js -> square n (fst t) ->
  exists t', for_each js (cell_step pearsonr cols pval i) t = Value t' /\
    square n (fst t') /\
    forall i' j', entry (fst t') i' j'
      = if decide (i' = i /\ j' ∈ js) then target pearsonr cols i j' (entry (fst t) i j')
        else entry (fst t) i' j'.
Proof.
  intros Hi Hjs. revert t. induction Hjs as [|j js Hj Hjs IH]; intros t Hsq.
  - exists t. split; [reflexivity|]. split; [assumption|].
    intros i' j'. rewrite decide_False; [reflexivity|]. intros [_ H]. inversion H.
  - destruct (cell_step_spec i j t Hi Hj Hsq) as (t1 & Hstep & Hsq1 & Hent1).
    destruct (IH t1 Hsq1) as (t' & Hloop & Hsq' & Hent').
    exists t'. cbn [for_each]. rewrite Hstep. cbn. split; [exact Hloop|].
    split; [assumption|].
    intros i' j'. rewrite Hent', !Hent1.
    repeat case_decide; try reflexivity; try (exfalso; set_solver).
    all: destruct_and?; subst;
      first [reflexivity | apply target_idempotent | exfalso; set_solver].
Qed.

Lemma outer_loop_spec (rows js : list nat) (t : tables) :
  List.Forall (fun i => i < n)%nat rows -> List.Forall (fun j => j < n)%nat js ->
  square n (fst t) ->
  exists t',
    for_each rows (fun i => for_each js (cell_step pearsonr cols pval i)) t = Value t' /\
    square n (fst t') /\
    forall i' j', entry (fst t') i' j'
      = if decide (i' ∈ rows /\ j' ∈ js) then target pearsonr cols i' j' (entry (fst t) i' j')
        else entry (fst t) i' j'.
Proof.
  intros Hrows Hjs. revert t. induction Hrows as [|i rows Hi Hrows IH]; intros t Hsq.
  - exists t. split; [reflexivity|]. split; [assumption|].
    intros i' j'. rewrite decide_False; [reflexivity|]. intros [H _]. inversion H.
  - destruct (inner_loop_spec i js t Hi Hjs Hsq) as (t1 & Hstep & Hsq1 & Hent1).
    destruct (IH t1 Hsq1) as (t' & Hloop & Hsq' & Hent').
    exists t'. cbn [for_each]. rewrite Hstep. cbn. split; [exact Hloop|].
    split; [assumption|].
    intros i' j'. rewrite Hent', !Hent1.
    repeat case_decide; try reflexivity; try (exfalso; set_solver).
    all: destruct_and?; subst;
      first [reflexivity | apply target_idempotent | exfalso; set_solver].
Qed.

End correlation_loops.

Lemma DataFrame_of_fits (n : nat) (s : statistic) :
  fits n s ->
  exists t, DataFrame_of n n s = Value t /\ square n t /\
    forall i j, (i < n)%nat -> (j < n)%nat -> entry t i j = statistic_entry s i j.
Proof.
  destruct s as [x|m]; cbn.
  - intros _. eexists. split; [reflexivity|]. split; [apply square_replicate|].
    intros i j Hi Hj. now apply entry_replicate.
  - intros Hshape. rewrite Hshape. eexists. split; [reflexivity|].
    split; [now apply has_shape_square | reflexivity].
Qed.

Lemma seq_below (n : nat) : List.Forall (fun i => i < n)%nat (seq 0 n).
Proof. apply List.Forall_forall. intros i Hi%in_seq. lia. Qed.

(** C7: when [spearmanr] returns a result of the shape of the labels and
    [pearsonr] returns for every pair of columns above the diagonal, the
    table is built, and its entry [(i, j)] is the coefficient of [pearsonr]
    for the columns [i] and [j] above the diagonal, the entry of
    [spearmanr]'s result below it, and NaN on it. *)
Theorem correlation_table_entries
    (spearmanr : list (list float) -> outcome (statistic * statistic))
    (pearsonr : list float -> list float -> outcome (float * float))
    (df : dataframe) (pval : float) (s p : statistic) :
  let cols := map values_of (select_dtypes_number df) in
  let n := n_letters (length cols) in
  spearmanr cols = Value (s, p) ->
  fits n s -> fits n p ->
  (forall i j, (i < j)%nat -> (j < n)%nat ->
     exists r q, pearsonr (nth i cols []) (nth j cols []) = Value (r, q)) ->
  exists t,
    prepare_correlation_table spearmanr pearsonr df pval = Value t /\
    forall i j, (i < n)%nat -> (j < n)%nat ->
      ((i < j)%nat ->
         exists r q, pearsonr (nth i cols []) (nth j cols []) = Value (r, q) /\
                     entry (fst t) i j = Some r) /\
      ((j < i)%nat -> entry (fst t) i j = statistic_entry s i j) /\
      (i = j -> entry (fst t) i j = Some nan).
Proof.
  intros cols n Hsp Hs Hp Hpearson.
  destruct (DataFrame_of_fits n s Hs) as (spe0 & Hspe0 & Hsq0 & Hent0).
  destruct (DataFrame_of_fits n p Hp) as (p0 & Hp0 & _ & _).
  set (t0 := (spe0, map (map (fun x => PBool (x <? pval)%f64)) p0) : tables).
  destruct (outer_loop_spec pearsonr cols pval n Hpearson (seq 0 n) (seq 0 n) t0
              (seq_below n) (seq_below n) Hsq0) as (t & Hloop & _ & Hent).
  exists t. split.
  - unfold prepare_correlation_table. fold cols. rewrite Hsp. cbn [mbind outcome_bind].
    replace (length (select_dtypes_number df)) with (length cols)
      by (unfold cols; apply length_map).
    fold n. rewrite Hspe0, Hp0. cbn [mbind outcome_bind].
    unfold for_range. destruct Hsq0 as [-> _]. exact Hloop.
  - intros i j Hi Hj. rewrite Hent.
    rewrite decide_True by (split; apply elem_of_seq; lia).
    unfold target. cbn [fst t0]. rewrite Hent0 by assumption.
    repeat split.
    + intros Hlt. destruct (Hpearson i j Hlt Hj) as (r & q & Hr).
      exists r, q. split; [assumption|].
      rewrite decide_False by lia. rewrite decide_True by assumption.
      unfold pearson_of. now rewrite Hr.
    + intros Hgt. rewrite decide_False by lia. now rewrite decide_False by lia.
    + intros ->. now rewrite decide_True.
Qed.

(** C7, at a concrete input. *)
Lemma correlation_table_entries_witness :
  let cols := map values_of (select_dtypes_number frame_example) in
  let n := n_letters (length cols) in
  exists t,
    prepare_correlation_table spearmanr_half pearsonr_quarter frame_example (of_frac 1 20)
      = Value t /\
    forall i j, (i < n)%nat -> (j < n)%nat ->
      ((i < j)%nat ->
         exists r q, pearsonr_quarter (nth i cols []) (nth j cols []) = Value (r, q) /\
                     entry (fst t) i j = Some r) /\
      ((j < i)%nat -> entry (fst t) i j = statistic_entry (Scalar (of_frac 1 2)) i j) /\
      (i = j -> entry (fst t) i j = Some nan).
Proof.
  apply (correlation_table_entries spearmanr_half pearsonr_quarter frame_example
           (of_frac 1 20) (Scalar (of_frac 1 2)) (Scalar zero)).
  - reflexivity.
  - exact I.
  - exact I.
  - intros i j _ _. eexists _, _. reflexivity.
Defined.

Example correlation_table_example :
  prepare_correlation_table spearmanr_half pearsonr_quarter frame_example (of_frac 1 20)
  = Value ([[nan; of_frac 1 4]; [of_frac 1 2; nan]],
           [[PNaN; PBool true]; [PBool true; PNaN]]).
Proof. vm_compute. reflexivity. Qed.

(* ===================================================================== *)
(** * Further properties                                                   *)
(* ===================================================================== *)

(** ** escape_for_latex *)

Lemma append_assoc (x y z : string) : ((x ++ y) ++ z = x ++ (y ++ z))%string.
Proof.
  induction x as [|a x IH]; [reflexivity|].
  change (String a ((x ++ y) ++ z) = String a (x ++ (y ++ z)))%string.
  now rewrite IH.
Qed.

Lemma replace_app (c : ascii) (r x y : string) :
  latex.replace c r (x ++ y) = (latex.replace c r x ++ latex.replace c r y)%string.
Proof.
  induction x as [|a x IH]; [reflexivity|].
  change (String a x ++ y)%string with (String a (x ++ y)%string).
  cbn [latex.replace]. rewrite IH. case_bool_decide; [|reflexivity].
  now rewrite append_assoc.
Qed.

Lemma escape_for_latex_app (x y : string) :
  latex.escape_for_latex (x ++ y)
  = (latex.escape_for_latex x ++ latex.escape_for_latex y)%string.
Proof.
  unfold latex.escape_for_latex. cbn [combine latex.chars latex.replacements fold_left fst snd].
  now rewrite !replace_app.
Qed.

Lemma escape_for_latex_char (a : ascii) :
  latex.escape_for_latex (String a "") = escape_char a.
Proof.
  destruct a as [[] [] [] [] [] [] [] []]; vm_compute; reflexivity.
Qed.

(** X1: the nine passes of [replace] amount to one pass that replaces each
    character by its own escape: no pass touches what an earlier pass has
    inserted.  So escaping goes through concatenation. *)
Theorem escape_for_latex_charwise (x y : string) :
  latex.escape_for_latex x = escape_chars x /\
  latex.escape_for_latex (x ++ y)
  = (latex.escape_for_latex x ++ latex.escape_for_latex y)%string.
Proof.
  split; [|apply escape_for_latex_app].
  induction x as [|a x IH]; [reflexivity|].
  change (String a x) with (String a "" ++ x)%string.
  rewrite escape_for_latex_app, escape_for_latex_char, IH. reflexivity.
Qed.

Lemma no_bare_special_chunk (a : ascii) (b : bool) (y : string) :
  no_bare_special b (escape_char a ++ y) = no_bare_special false y.
Proof.
  destruct a as [[] [] [] [] [] [] [] []]; destruct b; reflexivity.
Qed.

(** X2: in the escaped text no tilde and no caret is left, and every
    ampersand, percent sign, hash, underscore and brace stands right after a
    backslash. *)
Theorem escape_for_latex_leaves_no_bare_special (x : string) :
  no_bare_special false (latex.escape_for_latex x) = true.
Proof.
  destruct (escape_for_latex_charwise x "") as [-> _].
  induction x as [|a x IH]; [reflexivity|].
  cbn [escape_chars]. now rewrite no_bare_special_chunk.
Qed.

Example escape_for_latex_examples :
  map latex.escape_for_latex ["total_assets"; "R&D {50%}"; "a\b~c^d"]%string
  = ["total\_assets"; "R\&D \{50\%\}";
     "a\textbackslash b\textasciitilde c\textasciicircum d"]%string.
Proof. vm_compute. reflexivity. Qed.

(** ** PrepareRegressionTable: what the checks of the constructor give the
       methods *)

Lemma size_at_most_one_equal (l : list nat) (n m : nat) :
  ¬ (1 < size (list_to_set l : gset nat))%nat -> n ∈ l -> m ∈ l -> n = m.
Proof.
  intros Hsize Hn Hm. destruct (decide (n = m)) as [|Hne]; [assumption|].
  exfalso. apply Hsize. apply (two_elements_size _ n m); [set_solver | set_solver | assumption].
Qed.

(** An object the constructor accepts has seven lists of one length. *)
Lemma init_lengths (a : init_args) (o : self) :
  init a = Value o ->
  self_dvs o = dvs a /\
  length (self_idvs o) = length (dvs a) /\
  length (self_entity_effects o) = length (dvs a) /\
  length (self_time_effects o) = length (dvs a) /\
  length (self_cluster_entity o) = length (dvs a) /\
  length (self_cluster_time o) = length (dvs a) /\
  length (self_models o) = length (dvs a).
Proof.
  unfold init. destruct (set_attributes a) as [o'| |e] eqn:Hset; cbn; try discriminate.
  unfold check_attributes.
  case_bool_decide as Hknown; [discriminate|].
  case_bool_decide as Hlogit; [discriminate|].
  case_bool_decide as Hsize; [discriminate|].
  case_bool_decide as Hbyvar; [discriminate|].
  intros [= ->].
  assert (Hdvs : self_dvs o = dvs a).
  { unfold set_attributes in Hset.
    destruct (df_index_names a) as [|? [|? [|? ?]]]; cbn in Hset; try discriminate.
    now injection Hset as <-. }
  split; [assumption|]. rewrite <- Hdvs.
  pose proof (size_at_most_one_equal (equal_len_vars o)) as Heq.
  specialize (Heq (length (self_dvs o))).
  unfold equal_len_vars in Heq.
  repeat split; symmetry; apply Heq; try assumption; set_solver.
Qed.

(** X3: for an object the constructor accepts, [fe_str] and [cl_str] have
    one label per model: [zip] cuts nothing off, and the label of model [i]
    is the one of its two flags. *)
Theorem labels_for_every_model (a : init_args) (o : self) :
  init a = Value o ->
  length (PrepareRegressionTable.fe_str o) = length (dvs a) /\
  length (PrepareRegressionTable.cl_str o) = length (dvs a) /\
  forall i, (i < length (dvs a))%nat ->
    exists e t ce ct,
      self_entity_effects o !! i = Some e /\ self_time_effects o !! i = Some t /\
      self_cluster_entity o !! i = Some ce /\ self_cluster_time o !! i = Some ct /\
      PrepareRegressionTable.fe_str o !! i = Some (PrepareRegressionTable.effects_label e t) /\
      PrepareRegressionTable.cl_str o !! i = Some (PrepareRegressionTable.effects_label ce ct).
Proof.
  intros (_ & _ & Hee & Hte & Hce & Hct & _)%init_lengths.
  unfold PrepareRegressionTable.fe_str, PrepareRegressionTable.cl_str.
  rewrite !length_map, !length_combine, Hee, Hte, Hce, Hct.
  repeat split; try lia.
  intros i Hi.
  destruct (lookup_lt_is_Some_2 (self_entity_effects o) i) as [e He]; [lia|].
  destruct (lookup_lt_is_Some_2 (self_time_effects o) i) as [t Ht]; [lia|].
  destruct (lookup_lt_is_Some_2 (self_cluster_entity o) i) as [ce Hce']; [lia|].
  destruct (lookup_lt_is_Some_2 (self_cluster_time o) i) as [ct Hct']; [lia|].
  exists e, t, ce, ct. repeat split; try assumption.
  - rewrite list_lookup_fmap. 
    assert (H : combine (self_entity_effects o) (self_time_effects o) !! i = Some (e, t)).
    { apply lookup_zip_with_Some. eauto. }
    now rewrite H.
  - rewrite list_lookup_fmap.
    assert (H : combine (self_cluster_entity o) (self_cluster_time o) !! i = Some (ce, ct)).
    { apply lookup_zip_with_Some. eauto. }
    now rewrite H.
Qed.

Example init_accepted : init init_args_accepted = Value self_accepted.
Proof. vm_compute. reflexivity. Qed.

(** X3, at a concrete input. *)
Lemma labels_for_every_model_witness :
  length (PrepareRegressionTable.fe_str self_accepted) = length (dvs init_args_accepted) /\
  length (PrepareRegressionTable.cl_str self_accepted) = length (dvs init_args_accepted) /\
  forall i, (i < length (dvs init_args_accepted))%nat ->
    exists e t ce ct,
      self_entity_effects self_accepted !! i = Some e /\
      self_time_effects self_accepted !! i = Some t /\
      self_cluster_entity self_accepted !! i = Some ce /\
      self_cluster_time self_accepted !! i = Some ct /\
      PrepareRegressionTable.fe_str self_accepted !! i
        = Some (PrepareRegressionTable.effects_label e t) /\
      PrepareRegressionTable.cl_str self_accepted !! i
        = Some (PrepareRegressionTable.effects_label ce ct).
Proof.
  apply (labels_for_every_model init_args_accepted self_accepted).
  exact init_accepted.
Defined.

Example fe_str_example :
  PrepareRegressionTable.fe_str self_accepted = ["Firm and Year"; "Year"]%string /\
  PrepareRegressionTable.cl_str self_accepted = [""; "Year"]%string.
Proof. vm_compute. split; reflexivity. Qed.

Lemma results_from_in_range (model : Type)
    (feols : string -> PrepareRegressionTable.vcov -> exn + model) (o : self) (l : list nat) :
  length (self_idvs o) = length (self_dvs o) ->
  length (self_entity_effects o) = length (self_dvs o) ->
  length (self_time_effects o) = length (self_dvs o) ->
  length (self_cluster_entity o) = length (self_dvs o) ->
  length (self_cluster_time o) = length (self_dvs o) ->
  List.Forall (fun i => i < length (self_dvs o))%nat l ->
  PrepareRegressionTable.results_from model feols o l
    <> PrepareRegressionTable.Err PrepareRegressionTable.IndexError /\
  ((forall fml v, exists m, feols fml v = inr m) ->
   exists ms, PrepareRegressionTable.results_from model feols o l
              = PrepareRegressionTable.Ok ms /\ length ms = length l).
Proof.
  intros Hidv Hee Hte Hce Hct. induction 1 as [|i l Hi Hl [IH1 IH2]].
  - split; [discriminate|]. intros _. exists []. split; reflexivity.
  - destruct (lookup_lt_is_Some_2 (self_dvs o) i) as [dv Hdv]; [lia|].
    destruct (lookup_lt_is_Some_2 (self_idvs o) i) as [idv Hidv']; [lia|].
    destruct (lookup_lt_is_Some_2 (self_entity_effects o) i) as [e He]; [lia|].
    destruct (lookup_lt_is_Some_2 (self_time_effects o) i) as [t Ht]; [lia|].
    destruct (lookup_lt_is_Some_2 (self_cluster_entity o) i) as [ce Hce']; [lia|].
    destruct (lookup_lt_is_Some_2 (self_cluster_time o) i) as [ct Hct']; [lia|].
    cbn [PrepareRegressionTable.results_from].
    unfold PrepareRegressionTable.formula, PrepareRegressionTable.vcov_of,
      PrepareRegressionTable.getitem, PrepareRegressionTable.estimate.
    rewrite Hdv, Hidv', He, Ht, Hce', Hct'.
    cbn [mbind mret PrepareRegressionTable.result_bind PrepareRegressionTable.result_ret].
    split.
    + destruct (feols _ _) as [ex|m]; cbn; [discriminate|].
      destruct (PrepareRegressionTable.results_from model feols o l) as [ms|err];
        cbn; [discriminate | exact IH1].
    + intros Hfeols. destruct (IH2 Hfeols) as (ms & -> & Hlen).
      match goal with |- context [feols ?f ?v] => destruct (Hfeols f v) as [m ->] end.
      cbn. eexists. split; [reflexivity|]. cbn. now rewrite Hlen.
Qed.



Example results_example :
  PrepareRegressionTable.results _ feols_echo self_accepted
  = PrepareRegressionTable.Ok
      [("pb ~ roa + size | isin + year"%string, PrepareRegressionTable.Iid);
       ("roa ~ pb | year"%string, PrepareRegressionTable.CRV1 "year")].
Proof. vm_compute. reflexivity. Qed.

(** Without the checks the lists may differ in length, and [results] runs
    past the end of the shorter one. *)
Example results_of_unchecked_object :
  PrepareRegressionTable.results _ feols_echo
    (Self ["pb"; "roa"]%string [["roa"]]%string "isin" "year" 2
          [false; false] [false; false] [false; false] [false; false]
          ["auto"; "auto"]%string "")
  = PrepareRegressionTable.Err PrepareRegressionTable.IndexError.
Proof. vm_compute. reflexivity. Qed.

(** ** _mark_sig: the stars *)

(** The order of the floats is transitive. *)
Lemma leb_ltb_trans (p q c : float) :
  SFleb p q = true -> SFltb q c = true -> SFltb p c = true.
Proof.
  unfold SFleb, SFltb.
  destruct p as [sp|sp| |sp mp ep], q as [sq|sq| |sq mq eq], c as [sc|sc| |sc mc ec];
    cbn; try discriminate; try reflexivity;
    try (destruct sp; destruct sq; destruct sc; cbn; congruence);
    try (destruct sp; destruct sq; cbn; congruence);
    try (destruct sq; destruct sc; cbn; congruence);
    try (destruct sp; destruct sc; cbn; congruence).
  destruct sp, sq, sc; cbn; try discriminate; try reflexivity;
    change (Pos.compare_cont Eq mp mq) with (mp ?= mq)%positive;
    change (Pos.compare_cont Eq mq mc) with (mq ?= mc)%positive;
    change (Pos.compare_cont Eq mp mc) with (mp ?= mc)%positive;
    destruct (Z.compare_spec ep eq); destruct (Z.compare_spec eq ec);
    destruct (Z.compare_spec ep ec); try discriminate; try reflexivity; try lia;
    destruct (Pos.compare_spec mp mq); destruct (Pos.compare_spec mq mc);
    destruct (Pos.compare_spec mp mc); cbn; try discriminate; try reflexivity; try lia.
Qed.

(** X5: a smaller p-value never gets fewer stars nor more digits, a p-value
    that is NaN gets no star, and the digits and the stars always add up to
    six. *)
Theorem stars_grow_with_significance (p q : float) :
  (SFleb p q = true -> (stars q <= stars p)%nat /\
     (fst (PrepareRegressionTable.significance p)
      <= fst (PrepareRegressionTable.significance q))%nat) /\
  (is_nan p = true -> PrepareRegressionTable.significance p = (6%nat, ""%string)) /\
  (fst (PrepareRegressionTable.significance p) + stars p = 6)%nat.
Proof.
  unfold stars, PrepareRegressionTable.significance, F64.ltb.
  split; [|split].
  - intros Hle.
    destruct (SFltb q (of_frac 1 100)) eqn:Hq1.
    { rewrite (leb_ltb_trans p q _ Hle Hq1). cbn. lia. }
    destruct (SFltb q (of_frac 5 100)) eqn:Hq2.
    { rewrite (leb_ltb_trans p q _ Hle Hq2). destruct (SFltb p _); cbn; lia. }
    destruct (SFltb q (of_frac 1 10)) eqn:Hq3.
    { rewrite (leb_ltb_trans p q _ Hle Hq3). repeat destruct (SFltb p _); cbn; lia. }
    repeat destruct (SFltb p _); cbn; lia.
  - destruct p; cbn; try discriminate. reflexivity.
  - repeat destruct (SFltb p _); reflexivity.
Qed.

(** X5, at a p-value of 0.03 against one of 0.2. *)
Lemma stars_grow_with_significance_witness :
  (stars (of_frac 2 10) <= stars (of_frac 3 100))%nat /\
  (fst (PrepareRegressionTable.significance (of_frac 3 100))
   <= fst (PrepareRegressionTable.significance (of_frac 2 10)))%nat.
Proof.
  apply (stars_grow_with_significance (of_frac 3 100) (of_frac 2 10)).
  vm_compute. reflexivity.
Defined.

Example significance_examples :
  map PrepareRegressionTable.significance
      [of_frac 1 1000; of_frac 1 100; of_frac 3 100; of_frac 7 100; of_frac 1 10; nan]
  = [(3, "***"); (4, "**"); (4, "**"); (5, "*"); (6, ""); (6, "")]%nat%string.
Proof. vm_compute. reflexivity. Qed.

Example mark_sig_example :
  PrepareRegressionTable.mark_sig (fun digits x => "c"%string)
    [("Model_1"%string, one, of_frac 1 1000); ("Model_2"%string, one, of_frac 2 10)]
  = "c*** & c  "%string.
Proof. vm_compute. reflexivity. Qed.

(** ** prepare_data: what the filters keep out *)

(** A rounded result has the sign it was given, or is NaN. *)
Lemma binary_round_aux_sign (sx : bool) (mx ex : Z) (lx : location) :
  match binary_round_aux prec emax sx mx ex lx with
  | S754_zero s | S754_infinity s | S754_finite s _ _ => s = sx
  | S754_nan => True
  end.
Proof.
  unfold binary_round_aux.
  destruct (shr_fexp prec emax mx ex lx) as [mrs' e'].
  destruct (shr_fexp prec emax _ e' loc_Exact) as [mrs'' e''].
  destruct (shr_m mrs''); [reflexivity| |exact I].
  destruct (e'' <=? emax - prec); reflexivity.
Qed.

Lemma mul_million_positive (x : float) :
  (x * million >? zero)%f64 = true -> (x >? zero)%f64 = true.
Proof.
  destruct x as [s|s| |s m e]; cbn; try discriminate.
  - destruct s; cbn; congruence.
  - destruct s; [|reflexivity]. intros H. exfalso. revert H.
    unfold F64.gtb, F64.ltb, F64.mul, SFmul, million. cbn [xorb].
    pose proof (binary_round_aux_sign true (Zpos (m * 8589934592000000)) (e + -33) loc_Exact) as Hs.
    destruct (binary_round_aux _ _ _ _ _ _) as [s'|s'| |s' m' e']; try subst s'; cbn; discriminate.
Qed.

Lemma div_positive_numerator (x y : float) :
  (y >? zero)%f64 = true -> (x / y >? zero)%f64 = true -> (x >? zero)%f64 = true.
Proof.
  intros Hy. destruct (gtb_zero_positive y Hy) as [-> | (my & ey & ->)].
  - unfold inf. now rewrite div_by_inf_not_positive.
  - destruct x as [s|s| |s m e]; try (destruct s); try reflexivity;
      try (vm_compute; discriminate).
    intros H. exfalso. revert H.
    unfold F64.gtb, F64.ltb, F64.div, SFdiv. cbn [xorb].
    destruct (SFdiv_core_binary _ _ _ _ _ _) as [[mz ez] lz].
    pose proof (binary_round_aux_sign true mz ez lz) as Hs.
    destruct (binary_round_aux _ _ _ _ _ _) as [s'|s'| |s' m' e']; try subst s'; cbn; discriminate.
Qed.

Lemma div_finite_numerator_not_nan (x y : float) :
  is_finite (x / y)%f64 = true -> is_nan x = false.
Proof. destruct x; [reflexivity..|discriminate|reflexivity]. Qed.

Lemma mul_not_nan (x y : float) : is_nan (x * y)%f64 = false -> is_nan x = false.
Proof. destruct x; [reflexivity..|discriminate|reflexivity]. Qed.

Lemma positive_not_nan (x : float) : (x >? zero)%f64 = true -> is_nan x = false.
Proof. destruct x; [reflexivity..|discriminate|reflexivity]. Qed.

Lemma clean_row_source (r : row) (out : crow) :
  clean_row r = Some out ->
  is_nan (net_income r) = false /\ is_nan (total_assets r) = false /\
  is_nan (common_equity r) = false /\ is_nan (market_cap r) = false /\
  (common_equity r >? zero)%f64 = true /\ (total_assets r >? zero)%f64 = true /\
  (market_cap r >? zero)%f64 = true.
Proof.
  intros H.
  pose proof (clean_row_ratios _ _ H) as (_ & Hroa & Hpb & _).
  pose proof (clean_row_invariants _ _ H) as (_ & _ & Bpb & _ & _ & _ & _ & Froa).
  unfold clean_row in H.
  destruct (positive_mask (scale_units r)) eqn:Hpos; [|discriminate].
  apply andb_true_iff in Hpos as [Hce Hta]. cbn in Hce, Hta.
  rewrite Hpb in Bpb. rewrite Hroa in Froa.
  pose proof (div_positive_numerator _ _ Hce Bpb) as Hmc.
  apply mul_million_positive in Hce as Hce'. apply mul_million_positive in Hta as Hta'.
  repeat split; try assumption; try (now apply positive_not_nan).
  apply div_finite_numerator_not_nan in Froa. now apply mul_not_nan in Froa.
Qed.

(** X6: every row that [main] writes stems from a raw row in which net
    income, total assets, common equity and market capitalisation are all
    present (not NaN) and in which common equity, total assets and market
    capitalisation are greater than zero: a raw row with a missing or
    non-positive one is never written. *)
Theorem written_rows_have_complete_positive_sources
    (cfg : config) (w : world) (p : string) (rows : list crow) (out : crow) :
  In (EWrite p (ProcessedData rows)) (trace_of (main cfg w)) ->
  In out rows ->
  exists df r,
    files w !! wrds_raw_data cfg = Some (RawData df) /\ In r df /\
    isin (base out) = isin r /\
    is_nan (net_income r) = false /\ is_nan (total_assets r) = false /\
    is_nan (common_equity r) = false /\ is_nan (market_cap r) = false /\
    (common_equity r >? zero)%f64 = true /\ (total_assets r >? zero)%f64 = true /\
    (market_cap r >? zero)%f64 = true.
Proof.
  intros Hw Hout.
  apply main_writes in Hw as (_ & df & Hf & [= ->] & _).
  apply clean_rowwise in Hout as (r & Hr & Hrow).
  pose proof (clean_row_ratios _ _ Hrow) as (Hisin & _).
  apply clean_row_source in Hrow.
  exists df, r. tauto.
Qed.

(** X6, at a concrete input. *)
Lemma written_rows_have_complete_positive_sources_witness :
  exists df r,
    files world0 !! wrds_raw_data cfg0 = Some (RawData df) /\ In r df /\
    isin (base out0) = isin r /\
    is_nan (net_income r) = false /\ is_nan (total_assets r) = false /\
    is_nan (common_equity r) = false /\ is_nan (market_cap r) = false /\
    (common_equity r >? zero)%f64 = true /\ (total_assets r >? zero)%f64 = true /\
    (market_cap r >? zero)%f64 = true.
Proof.
  apply (written_rows_have_complete_positive_sources cfg0 world0 (processed_data cfg0)
           [out0] out0).
  - exact main_writes_example.
  - left; reflexivity.
Defined.

(** Rows with a missing value, with negative equity, and with a market
    capitalisation of zero are dropped; a loss below total assets is kept. *)
Example clean_drops_examples :
  let mk ta ni ce mc := Row "DE0003" (of_Z 2023) ta ni ce (of_Z 1) mc mc in
  clean [mk (of_Z 10) nan (of_Z 5) (of_Z 7000000);
         mk (of_Z 10) (of_Z 1) (of_Z (-5)) (of_Z 7000000);
         mk (of_Z 10) (of_Z 1) (of_Z 5) zero;
         mk (of_Z 10) (of_Z 1) (of_Z 5) nan;
         mk zero (of_Z 1) (of_Z 5) (of_Z 7000000);
         mk (of_Z 10) (of_Z (-2)) (of_Z 5) (of_Z 7000000)]
  = map (fun c => CRow (scale_units (mk (of_Z 10) (of_Z (-2)) (of_Z 5) (of_Z 7000000)))
                       (fst c) (snd c))
        [(of_frac (-2) 10, of_frac 7 5)].
Proof. vm_compute. reflexivity. Qed.

(** X7: the cleaning goes row by row: the cleaned frame of two frames put
    one after the other is the two cleaned frames put one after the other,
    and cleaning never adds a row. *)
Theorem clean_is_rowwise (df1 df2 : list row) :
  clean (df1 ++ df2) = clean df1 ++ clean df2 /\
  (length (clean df1) <= length df1)%nat.
Proof.
  unfold clean. split.
  - now rewrite !map_app, !List.filter_app, !map_app, !List.filter_app.
  - etransitivity; [apply filter_length_le|].
    etransitivity; [apply filter_length_le|].
    rewrite !length_map.
    etransitivity; [apply filter_length_le|].
    now rewrite length_map.
Qed.

(** ** prepare_data: what main leaves alone *)

(** X8: [main] touches one path only: every other file is after the run what
    it was before (the raw input among them, unless the two configured
    paths are the same), no directory is removed, and a run that writes
    nothing leaves the files as they were. *)
Theorem main_leaves_other_files (cfg : config) (w : world) :
  let r := main cfg w in
  (forall p, p <> processed_data cfg -> files (world_of r) !! p = files w !! p) /\
  dirs w ⊆ dirs (world_of r) /\
  (writes_nothing (trace_of r) -> files (world_of r) = files w).
Proof.
  cbn zeta. rewrite main_runs. cbn zeta.
  destruct (bool_decide _); [|now repeat split].
  destruct (files w !! wrds_raw_data cfg) as [[df|df|df]|]; try now repeat split.
  destruct (clean df) as [|c rows]; [now repeat split|].
  destruct (bool_decide _); [now repeat split|].
  unfold world_of, trace_of, writes_nothing. cbn. repeat split.
  - intros p Hp. now apply lookup_insert_ne.
  - set_solver.
  - intros Hnothing. exfalso. eapply Hnothing. do 5 right. left. reflexivity.
Qed.

Example main_keeps_the_raw_file :
  files (world_of (main cfg0 world0)) !! wrds_raw_data cfg0
  = Some (RawData [raw0]).
Proof. vm_compute. reflexivity. Qed.

(** ** do_analysis: the whole run *)

Lemma dirname_of_figures :
  dirname do_analysis.scatter_png = do_analysis.output_dir /\
  dirname do_analysis.profit_only_png = do_analysis.output_dir.
Proof. split; vm_compute; reflexivity. Qed.

Lemma second_block_runs (w : world) :
  (df ← read_processed do_analysis.analysis_data;
   write_file do_analysis.profit_only_png (Figure (List.filter do_analysis.profitable df));;
   print MsgNewFigure) w
  = second_block w [].
Proof.
  destruct dirname_of_figures as [_ Hd].
  unfold second_block. run_io.
  destruct (files w !! do_analysis.analysis_data) as [[df|df|df]|]; cbn; try reflexivity.
  rewrite Hd.
  destruct (decide (do_analysis.output_dir ∈ dirs w)) as [Hin|Hnot].
  - rewrite !bool_decide_true by auto. reflexivity.
  - rewrite !bool_decide_false; [reflexivity|assumption|].
    intros [H|H]; [discriminate|contradiction].
Qed.

Lemma second_block_trace (w : world) (t : list event) :
  second_block w t
  = (outcome_of (second_block w []), world_of (second_block w []),
     t ++ trace_of (second_block w [])).
Proof.
  unfold second_block.
  destruct (files w !! do_analysis.analysis_data) as [[df|df|df]|]; cbn;
    rewrite ?app_nil_r; try reflexivity.
  destruct (bool_decide _); reflexivity.
Qed.

Lemma io_bind_value {A B : Type} (c : io A) (k : A -> io B) (w w1 : world)
    (a : A) (t1 : list event) :
  c w = (Value a, w1, t1) ->
  (c ≫= k) w = (outcome_of (k a w1), world_of (k a w1), t1 ++ trace_of (k a w1)).
Proof.
  intros H. unfold mbind, io_bind. rewrite H.
  destruct (k a w1) as [[o w2] t2]. reflexivity.
Qed.

(** The run of the script when the configured file is a processed dataset:
    the first block, then the second in the world the first has left. *)
Lemma do_analysis_runs (cfg : config) (w : world) (df : list crow) :
  files w !! processed_data cfg = Some (ProcessedData df) ->
  do_analysis.main cfg w
  = let pre := [ERead (processed_data cfg); EPrint MsgSummaryHeader;
                EPrint (MsgDescribe df)] in
    if (length df <? 2)%nat then second_block w (pre ++ [EPrint MsgTooFewRows])
    else second_block
           (World (<[ do_analysis.scatter_png := Figure df ]> (files w))
                  ({[ do_analysis.output_dir ]} ∪ dirs w))
           (pre ++ [EPrint MsgRule; EPrint (MsgCorrelation df); EPrint MsgRule;
                    EMakedirs do_analysis.output_dir;
                    EWrite do_analysis.scatter_png (Figure df);
                    EPrint (MsgFigureSaved do_analysis.scatter_png)]).
Proof.
  intros Hf. destruct dirname_of_figures as [Hd _].
  unfold do_analysis.main. cbn zeta.
  erewrite io_bind_value.
  2: { unfold path_exists. rewrite bool_decide_true by (left; by eexists). reflexivity. }
  cbn [negb].
  erewrite (io_bind_value (mret tt)); [|reflexivity].
  erewrite (io_bind_value (read_processed _)).
  2: { unfold read_processed. rewrite Hf. reflexivity. }
  erewrite (io_bind_value (print _)); [|reflexivity].
  erewrite (io_bind_value (print _)); [|reflexivity].
  destruct (length df <? 2)%nat.
  - erewrite (io_bind_value (print _)); [|reflexivity].
    rewrite second_block_runs.
    rewrite (second_block_trace w (_ ++ _)). cbn. reflexivity.
  - erewrite io_bind_value.
    2: { run_io. rewrite (bool_decide_false (do_analysis.output_dir = EmptyString))
           by discriminate.
         cbn. rewrite Hd.
         rewrite bool_decide_true by (right; set_solver). reflexivity. }
    rewrite second_block_runs.
    rewrite (second_block_trace _ (_ ++ _)). cbn. reflexivity.
Qed.

Lemma second_block_never_exits (w : world) (t : list event) :
  outcome_of (second_block w t) <> Exit.
Proof.
  unfold second_block.
  destruct (files w !! do_analysis.analysis_data) as [[df|df|df]|]; try discriminate.
  destruct (bool_decide _); discriminate.
Qed.





(** X11: after a run of [prepare_data.main] that has written its output,
    [do_analysis] with the same configuration does not stop at the check of
    line 14: it reads the file and describes exactly the cleaned frame of
    the raw input, and it never calls [exit()]. *)
Theorem do_analysis_reads_what_prepare_data_wrote (cfg : config) (w : world) :
  writes (trace_of (main cfg w)) (processed_data cfg) ->
  exists df rest,
    files w !! wrds_raw_data cfg = Some (RawData df) /\ clean df <> [] /\
    let r := do_analysis.main cfg (world_of (main cfg w)) in
    outcome_of r <> Exit /\
    trace_of r = ERead (processed_data cfg) :: EPrint MsgSummaryHeader
                 :: EPrint (MsgDescribe (clean df)) :: rest.
Proof.
  intros [f Hw].
  pose proof (main_writes cfg w _ f Hw) as (_ & df & Hf & -> & Hne).
  assert (Hfile : files (world_of (main cfg w)) !! processed_data cfg
                  = Some (ProcessedData (clean df))).
  { revert Hw. rewrite main_runs. cbn zeta.
    destruct (bool_decide _).
    2: { intros Hw. cbn in Hw. repeat (destruct Hw as [Hw|Hw]; try discriminate). contradiction. }
    rewrite Hf. destruct (clean df) as [|c rows] eqn:Hc; [contradiction|].
    destruct (bool_decide _).
    { intros Hw. cbn in Hw. repeat (destruct Hw as [Hw|Hw]; try discriminate). contradiction. }
    intros _. unfold world_of. cbn. apply lookup_insert_eq. }
  rewrite (do_analysis_runs cfg _ (clean df) Hfile). cbn zeta.
  destruct (length (clean df) <? 2)%nat; rewrite second_block_trace;
    eexists df, _; (split; [exact Hf|]); (split; [exact Hne|]);
    (split; [apply second_block_never_exits | reflexivity]).
Qed.

(** X11, in the world of the example. *)
Lemma do_analysis_reads_what_prepare_data_wrote_witness :
  exists df rest,
    files world0 !! wrds_raw_data cfg0 = Some (RawData df) /\ clean df <> [] /\
    let r := do_analysis.main cfg0 (world_of (main cfg0 world0)) in
    outcome_of r <> Exit /\
    trace_of r = ERead (processed_data cfg0) :: EPrint MsgSummaryHeader
                 :: EPrint (MsgDescribe (clean df)) :: rest.
Proof.
  apply (do_analysis_reads_what_prepare_data_wrote cfg0 world0).
  exact main_writes_in_world0.
Defined.

(** ** prepare_correlation_table: more columns than letters *)

(** X12: the rows and columns of the table are labelled with the capital
    letters, of which there are 26.  With more than 26 numeric columns and a
    matrix from [spearmanr] of their number, the labels do not fit the
    matrix and the function raises a [ValueError]. *)
Theorem correlation_table_beyond_26_columns
    (spearmanr : list (list float) -> outcome (statistic * statistic))
    (pearsonr : list float -> list float -> outcome (float * float))
    (df : dataframe) (pval : float) (m : list (list float)) (p : statistic) :
  let cols := map values_of (select_dtypes_number df) in
  (26 < length cols)%nat ->
  spearmanr cols = Value (Matrix m, p) ->
  length m = length cols ->
  prepare_correlation_table spearmanr pearsonr df pval = Raise ValueError.
Proof.
  intros cols Hmany Hsp Hm.
  unfold prepare_correlation_table. fold cols. rewrite Hsp.
  cbn [mbind outcome_bind].
  replace (length (select_dtypes_number df)) with (length cols)
    by (unfold cols; apply length_map).
  unfold n_letters. rewrite Nat.min_r by lia.
  unfold DataFrame_of, has_shape.
  rewrite bool_decide_false by lia. reflexivity.
Qed.

(** X12, with 27 columns. *)
Lemma correlation_table_beyond_26_columns_witness :
  prepare_correlation_table spearmanr_square pearsonr_quarter frame_27 (of_frac 1 20)
  = Raise ValueError.
Proof.
  apply (correlation_table_beyond_26_columns spearmanr_square pearsonr_quarter frame_27
           (of_frac 1 20) (replicate 27 (replicate 27 one))
           (Matrix (replicate 27 (replicate 27 zero)))).
  - vm_compute. lia.
  - reflexivity.
  - reflexivity.
Defined.

(** With 26 columns the table is built. *)
Example correlation_table_26_columns :
  exists t, prepare_correlation_table spearmanr_square pearsonr_quarter
              (replicate 26 (Column "x" (Numeric [one; zero; one]))) (of_frac 1 20)
            = Value t /\ length (fst t) = 26%nat.
Proof. eexists. split; [vm_compute; reflexivity | reflexivity]. Qed.

(** ** pull_wrds_data: no firm is lost, none is doubled *)

(** X13: the deduplication of the market data keeps every ISIN of the query
    result and adds none, and it never has more rows than the query
    result. *)
Theorem dedup_keeps_every_isin (sort : list quote -> list quote) (df_mkt_raw : list quote) :
  (forall l, Permutation (sort l) l) ->
  (forall i, In i (map q_isin (dedup sort df_mkt_raw)) <-> In i (map q_isin df_mkt_raw)) /\
  (length (dedup sort df_mkt_raw) <= length df_mkt_raw)%nat.
Proof.
  intros Hperm. unfold dedup. split.
  - intros i. split.
    + intros (r & <- & Hr%tail1_subset)%in_map_iff.
      apply in_map. apply (Permutation_in _ (Hperm df_mkt_raw)). assumption.
    + intros (r & <- & Hr)%in_map_iff.
      apply tail1_keeps_every_isin.
      apply (Permutation_in _ (Permutation_sym (Hperm df_mkt_raw))). assumption.
  - rewrite <- (Permutation_length (Hperm df_mkt_raw)).
    generalize (sort df_mkt_raw). intros l.
    induction l as [|x l IH]; cbn; [lia|].
    destruct (existsb (same_isin x) l); cbn; lia.
Qed.

(** X13, on the quotes of the example. *)
Lemma dedup_keeps_every_isin_witness :
  (forall i, In i (map q_isin (df_mkt quotes_example)) <-> In i (map q_isin quotes_example)) /\
  (length (df_mkt quotes_example) <= length quotes_example)%nat.
Proof.
  apply (dedup_keeps_every_isin sort_values_datadate quotes_example).
  exact sort_values_datadate_perm.
Defined.

(** The facts of the deduplication for the sort of the model. *)
Lemma dedup_keeps_latest_row_per_isin_lemma (df_mkt_raw : list quote) :
  List.NoDup (map q_isin (df_mkt df_mkt_raw)) /\
  forall r, In r (df_mkt df_mkt_raw) ->
    In r df_mkt_raw /\
    forall r', In r' df_mkt_raw -> q_isin r' = q_isin r -> datadate r' <= datadate r.
Proof.
  unfold df_mkt, dedup. split; [apply tail1_one_row_per_isin|].
  intros r Hr. split.
  - apply (Permutation_in _ (sort_values_datadate_perm df_mkt_raw)). now apply tail1_subset.
  - intros r' Hr' Hisin.
    apply (tail1_latest (sort_values_datadate df_mkt_raw)); try assumption.
    + apply Sorted_StronglySorted; [exact date_le_transitive | apply sort_values_datadate_sorted].
    + apply (Permutation_in _ (Permutation_sym (sort_values_datadate_perm df_mkt_raw))).
      assumption.
Qed.

Lemma matches_at_most_one (l : list quote) (i : string) :
  List.NoDup (map q_isin l) ->
  (length (List.filter (fun q => bool_decide (q_isin q = i)) l) <= 1)%nat.
Proof.
  induction l as [|q l IH]; cbn; [lia|].
  intros Hnd. apply List.NoDup_cons_iff in Hnd as [Hnot Hnd].
  case_bool_decide as Hq; cbn; [|now apply IH].
  assert (Hnone : List.filter (fun q0 => bool_decide (q_isin q0 = i)) l = []).
  { destruct (List.filter _ l) as [|q' l'] eqn:Hf; [reflexivity|].
    exfalso. apply Hnot.
    assert (Hin : In q' (List.filter (fun q0 => bool_decide (q_isin q0 = i)) l))
      by (rewrite Hf; now left).
    apply filter_In in Hin as [Hin Hq'%bool_decide_eq_true].
    rewrite Hq, <- Hq'. now apply in_map. }
  rewrite Hnone. cbn. lia.
Qed.

Lemma merge_length (df_acct : list account) (mkt : list quote) :
  List.NoDup (map q_isin mkt) -> (length (merge df_acct mkt) <= length df_acct)%nat.
Proof.
  intros Hnd. unfold merge. induction df_acct as [|a l IH]; cbn; [lia|].
  rewrite length_app, length_map.
  pose proof (matches_at_most_one mkt (a_isin a) Hnd). lia.
Qed.

(** X14: the merged frame has at most one row per accounting row; each of
    its rows carries the accounting columns of an accounting row and the
    price and shares of the latest quote of the same ISIN, with the market
    capitalisation their product; and an accounting row whose ISIN has a
    quote is in the merged frame. *)
Theorem df_final_joins_latest_quote (df_acct : list account) (df_mkt_raw : list quote) :
  (length (df_final df_acct df_mkt_raw) <= length df_acct)%nat /\
  (forall r, In r (df_final df_acct df_mkt_raw) ->
     exists a q,
       In a df_acct /\ In q df_mkt_raw /\ a_isin a = q_isin q /\
       r = with_market_cap (a, q) /\
       market_cap r = (price_close r * shares_outstanding r)%f64 /\
       forall q', In q' df_mkt_raw -> q_isin q' = q_isin q -> datadate q' <= datadate q) /\
  (forall a q, In a df_acct -> In q df_mkt_raw -> q_isin q = a_isin a ->
     exists r, In r (df_final df_acct df_mkt_raw) /\ isin r = a_isin a /\
               total_assets r = a_total_assets a /\ net_income r = a_net_income a /\
               common_equity r = a_common_equity a).
Proof.
  pose proof (dedup_keeps_latest_row_per_isin_lemma df_mkt_raw) as [Hnd Hlatest].
  unfold df_final. split; [|split].
  - rewrite length_map. now apply merge_length.
  - intros r (aq & <- & Haq)%in_map_iff. destruct aq as [a q].
    unfold merge in Haq. apply in_flat_map in Haq as (a' & Ha' & Hin).
    apply in_map_iff in Hin as (q' & [= -> ->] & Hq).
    apply filter_In in Hq as [Hq Hisin%bool_decide_eq_true].
    destruct (Hlatest q Hq) as [Hraw Hmax].
    exists a, q. repeat split; auto.
  - intros a q Ha Hq Hisin.
    destruct (dedup_keeps_every_isin sort_values_datadate df_mkt_raw
                sort_values_datadate_perm) as [Hkeep _].
    assert (Hi : In (a_isin a) (map q_isin (df_mkt df_mkt_raw))).
    { apply Hkeep. rewrite <- Hisin. now apply in_map. }
    apply in_map_iff in Hi as (q0 & Hq0 & Hin0).
    exists (with_market_cap (a, q0)). split; [|repeat split].
    apply in_map. unfold merge. apply in_flat_map. exists a. split; [assumption|].
    apply in_map. apply filter_In. split; [assumption|]. now apply bool_decide_eq_true.
Qed.
